(** * NSE event board: the JSON API and the page monitors

    A shallow embedding of the parts of the repository that carry a
    contract:

    - [api.py]: [load_json_file], [paginate_data], [create_response],
      [error_response] and the four paged routes;
    - [announcements_monitor.py] and [crd_monitor.py]: cell and row
      extraction, [scrape_all_pages], [save_latest], [cleanup_old_files]
      and [run_single_scrape];
    - [heatmap_api.py] and [heatmap_scraper.py]: the duplicate removal
      by symbol and by name.

    Python values are modelled as they are at run time: integers are
    unbounded ([Z]), a parsed JSON document is a tree whose objects keep
    their insertion order, an exception is an explicit result, and the
    disk is a finite map from paths to file contents.  The browser is an
    oracle: a record of what each driver call answers. *)

From Stdlib Require Import ZArith Lia List Bool Ascii DecimalString.
From Stdlib Require String.
From stdpp Require Import base tactics option list list_numbers gmap strings.

Import ListNotations.
Set Warnings "-register-all,-clear-no-such-hyp".
Local Open Scope Z_scope.

(** ** Python values *)

(** A JSON document as [json.load] returns it.  Objects are Python dicts:
    association lists in insertion order. Numbers are the integers (the
    snapshots hold counts only). *)
Inductive json : Type :=
| JNull
| JBool (b : bool)
| JNum (z : Z)
| JStr (s : string)
| JList (l : list json)
| JObj (kvs : list (string * json)).

(** What a call can raise. *)
Inductive exn : Type :=
| ZeroDivisionError
| TypeError
| AttributeError
| DriverError.

(** A call either returns or raises. *)
Inductive result (A : Type) : Type :=
| Ok (a : A)
| Raise (e : exn).
Arguments Ok {A} a.
Arguments Raise {A} e.

Definition bind {A B} (r : result A) (k : A -> result B) : result B :=
  match r with
  | Ok a => k a
  | Raise e => Raise e
  end.

Notation "'do' x <- r ;; k" := (bind r (fun x => k))
  (at level 10, x name, r at level 99, k at level 200).

Module Py.

(** [bool(x)]: Python truthiness. *)
Definition truthy (j : json) : bool :=
  match j with
  | JNull => false
  | JBool b => b
  | JNum z => negb (z =? 0)
  | JStr s => negb (String.eqb s "")
  | JList l => match l with [] => false | _ => true end
  | JObj kvs => match kvs with [] => false | _ => true end
  end.

(** [d.get(k)] on a dict. *)
Fixpoint dict_get (kvs : list (string * json)) (k : string) : option json :=
  match kvs with
  | [] => None
  | (k', v) :: rest => if String.eqb k' k then Some v else dict_get rest k
  end.

(** [d.get(k, dflt)]. *)
Definition dict_get_default (kvs : list (string * json)) (k : string)
    (dflt : json) : json :=
  match dict_get kvs k with
  | Some v => v
  | None => dflt
  end.

(** [d.get(k)] as a JSON value: a missing key reads as [None]. *)
Definition dict_get_none (kvs : list (string * json)) (k : string) : json :=
  dict_get_default kvs k JNull.

(** [d[k] = v]: an existing key keeps its place and takes the new
    value, a new key goes to the end. *)
Fixpoint dict_set (kvs : list (string * json)) (k : string) (v : json)
    : list (string * json) :=
  match kvs with
  | [] => [(k, v)]
  | (k', v') :: rest =>
      if String.eqb k' k then (k, v) :: rest
      else (k', v') :: dict_set rest k v
  end.

Definition dict_keys (kvs : list (string * json)) : list string :=
  map fst kvs.

(** The bound a slice index is clipped to: a negative index counts
    from the end, and both ends are clipped to [0, len]. *)
Definition slice_index (len i : Z) : Z :=
  if i <? 0 then Z.max (i + len) 0 else Z.min i len.

(** [l[start:stop]]. *)
Definition slice {A} (l : list A) (start stop : Z) : list A :=
  let n := Z.of_nat (length l) in
  let s := slice_index n start in
  let e := slice_index n stop in
  take (Z.to_nat (e - s)) (drop (Z.to_nat s) l).

(** [c.lower()] on an ASCII letter; other characters are unchanged. *)
Definition lower_ascii (c : ascii) : ascii :=
  let n := nat_of_ascii c in
  if ((65 <=? n) && (n <=? 90))%nat then ascii_of_nat (n + 32) else c.

(** [s.lower()]. *)
Fixpoint lower (s : string) : string :=
  match s with
  | EmptyString => EmptyString
  | String c rest => String (lower_ascii c) (lower rest)
  end.

(** [needle in hay] on strings. *)
Fixpoint contains (needle hay : string) : bool :=
  String.prefix needle hay ||
  match hay with
  | EmptyString => false
  | String _ rest => contains needle rest
  end.

(** [c.isspace()] on ASCII. *)
Definition is_space (c : ascii) : bool :=
  let n := nat_of_ascii c in
  (((9 <=? n) && (n <=? 13)) || ((28 <=? n) && (n <=? 32)))%nat.

Fixpoint lstrip (s : string) : string :=
  match s with
  | EmptyString => EmptyString
  | String c rest => if is_space c then lstrip rest else s
  end.

Fixpoint rstrip (s : string) : string :=
  match s with
  | EmptyString => EmptyString
  | String c rest =>
      match rstrip rest with
      | EmptyString => if is_space c then EmptyString else String c EmptyString
      | r => String c r
      end
  end.

(** [s.strip()]. *)
Definition strip (s : string) : string := rstrip (lstrip s).

(** [s.endswith(suffix)]. *)
Definition endswith (suffix s : string) : bool :=
  (String.length suffix <=? String.length s)%nat &&
  String.eqb
    (String.substring (String.length s - String.length suffix)
       (String.length suffix) s)
    suffix.

(** [os.path.join(a, b)] on POSIX paths. *)
Definition path_join (a b : string) : string :=
  if String.prefix "/" b then b
  else if String.eqb a "" then b
  else if String.eqb (String.substring (String.length a - 1) 1 a) "/" then a +:+ b
  else a +:+ "/" +:+ b.

End Py.

(** ** The disk *)

(** What a file holds: a JSON document, or bytes [json.load] rejects. *)
Inductive file_data : Type :=
| FileJson (j : json)
| FileGarbage.

Abbreviation disk := (gmap string file_data).

(** ** api.py *)

Module Api.

(** [load_json_file(filepath)]: [None] when the file is absent or does
    not parse. *)
Definition load_json_file (fs : disk) (filepath : string) : option json :=
  match fs !! filepath with
  | None => None
  | Some (FileJson j) => Some j
  | Some FileGarbage => None
  end.

(** [paginate_data(data, page, per_page)] on a list.  [//] is floor
    division and raises on a zero divisor. *)
Definition paginate_data {A} (data : list A) (page per_page : Z)
    : result (list A * Z * Z) :=
  match data with
  | [] => Ok ([], 0, 0)
  | _ =>
      let total := Z.of_nat (length data) in
      if per_page =? 0 then Raise ZeroDivisionError
      else
        let total_pages := (total + per_page - 1) / per_page in
        let start := (page - 1) * per_page in
        let end_ := start + per_page in
        Ok (Py.slice data start end_, total, total_pages)
  end.

(** [paginate_data] on whatever the snapshot holds under [data].  A
    falsy value takes the early return; a list or a string is sliced;
    [len] or the slice raises on anything else. *)
Definition paginate_json (data : json) (page per_page : Z)
    : result (json * Z * Z) :=
  match data with
  | JList l =>
      do r <- paginate_data l page per_page ;;
      let '(s, total, total_pages) := r in
      Ok (JList s, total, total_pages)
  | JStr (String _ _ as s) =>
      do r <- paginate_data (String.list_ascii_of_string s) page per_page ;;
      let '(cs, total, total_pages) := r in
      Ok (JStr (String.string_of_list_ascii cs), total, total_pages)
  | JObj (_ :: _) =>
      if per_page =? 0 then Raise ZeroDivisionError else Raise TypeError
  | _ =>
      if Py.truthy data then Raise TypeError else Ok (JList [], 0, 0)
  end.

(** [create_response(data, metadata, page, per_page, total,
    total_pages)]; [metadata.get] needs a dict. *)
Definition create_response (data : json) (metadata : json)
    (page per_page total total_pages : Z) : result json :=
  match metadata with
  | JObj md =>
      Ok (JObj
        [ ("success", JBool true);
          ("metadata", JObj
            [ ("scrape_timestamp", Py.dict_get_none md "scrape_timestamp");
              ("total_records", Py.dict_get_none md "total_records");
              ("total_pages_scraped", Py.dict_get_none md "total_pages");
              ("source_url", Py.dict_get_none md "source_url");
              ("market_type", Py.dict_get_default md "market_type" (JStr "N/A")) ]);
          ("pagination", JObj
            [ ("page", JNum page);
              ("per_page", JNum per_page);
              ("total_records", JNum total);
              ("total_pages", JNum total_pages);
              ("has_next", JBool (page <? total_pages));
              ("has_prev", JBool (page >? 1)) ]);
          ("data", data) ])
  | _ => Raise AttributeError
  end.

(** An HTTP answer: status code and JSON body. *)
Record response : Type := { status : Z; body : json }.

(** [jsonify(x)]: status 200. *)
Definition jsonify (j : json) : response := {| status := 200; body := j |}.

(** [error_response(message, code=404)]. *)
Definition error_response (message : string) (code : Z) : response :=
  {| status := code;
     body := JObj [ ("success", JBool false); ("error", JStr message) ] |}.

(** [internal_error]: the handler Flask runs when a view raises. *)
Definition internal_error : response :=
  {| status := 500;
     body := JObj [ ("success", JBool false);
                    ("error", JStr "Internal server error") ] |}.

(** The query string after [request.args.get(..., type=int)]: [None]
    is a parameter that is absent or does not convert, which reads as
    the default. *)
Record request : Type :=
  { arg_page : option Z;
    arg_per_page : option Z;
    arg_market : option string }.

Definition get_page (req : request) : Z := default 1 (arg_page req).

Definition get_per_page (req : request) : Z :=
  Z.min (default 50 (arg_per_page req)) 1000.

Definition get_market (req : request) : string :=
  Py.lower (default "equity" (arg_market req)).

(** The body the four routes share after the query parameters are
    read: load, 404 when there is nothing to serve, paginate, wrap. *)
Definition serve_snapshot (fs : disk) (filepath message : string)
    (page per_page : Z) : response :=
  match load_json_file fs filepath with
  | None => error_response message 404
  | Some json_data =>
      if negb (Py.truthy json_data) then error_response message 404
      else
        let answer :=
          do kvs <- match json_data with
                 | JObj kvs => Ok kvs
                 | _ => Raise AttributeError
                 end ;;
          do r <- paginate_json (Py.dict_get_default kvs "data" (JList []))
                 page per_page ;;
          let '(paginated_data, total, total_pages) := r in
          create_response paginated_data
            (Py.dict_get_default kvs "metadata" (JObj []))
            page per_page total total_pages in
        match answer with
        | Ok resp => jsonify resp
        | Raise _ => internal_error
        end
  end.

Definition event_calendar_path : string := "event_calendar_data/latest.json".
Definition crd_path : string := "crd_data/latest.json".
Definition announcements_path (market : string) : string :=
  "announcements_data/latest_" +:+ market +:+ ".json".
Definition credit_rating_path (market : string) : string :=
  "credit_rating_data/latest_" +:+ market +:+ ".json".

(** [GET /event-calendar]. *)
Definition get_event_calendar (fs : disk) (req : request) : response :=
  serve_snapshot fs event_calendar_path
    "Event calendar data not found. Please ensure the monitor is running."
    (get_page req) (get_per_page req).

(** [GET /announcements]. *)
Definition get_announcements (fs : disk) (req : request) : response :=
  let market := get_market req in
  serve_snapshot fs (announcements_path market)
    ("Announcements data not found for market: " +:+ market +:+ ". "
     +:+ "Available markets: equity, sme, debt, mf. "
     +:+ "Please ensure the monitor is running for this market type.")
    (get_page req) (get_per_page req).

(** [GET /crd]. *)
Definition get_crd (fs : disk) (req : request) : response :=
  serve_snapshot fs crd_path
    "CRD data not found. Please ensure the monitor is running."
    (get_page req) (get_per_page req).

(** [GET /credit-rating]. *)
Definition get_credit_rating (fs : disk) (req : request) : response :=
  let market := get_market req in
  serve_snapshot fs (credit_rating_path market)
    ("Credit rating data not found for market: " +:+ market +:+ ". "
     +:+ "Available markets: equity, sme. "
     +:+ "Please ensure the monitor is running for this market type.")
    (get_page req) (get_per_page req).

(** The four paged routes. *)
Inductive endpoint : Type :=
| EventCalendar
| Announcements
| Crd
| CreditRating.

Definition route (ep : endpoint) : disk -> request -> response :=
  match ep with
  | EventCalendar => get_event_calendar
  | Announcements => get_announcements
  | Crd => get_crd
  | CreditRating => get_credit_rating
  end.

(** The snapshot file a route reads for a request. *)
Definition route_path (ep : endpoint) (req : request) : string :=
  match ep with
  | EventCalendar => event_calendar_path
  | Announcements => announcements_path (get_market req)
  | Crd => crd_path
  | CreditRating => credit_rating_path (get_market req)
  end.

End Api.

(** ** announcements_monitor.py and crd_monitor.py *)

(** The two monitor classes share their text but for the table they
    expect, the page cap, the link shape and the snapshot name; [kind]
    says which class an object belongs to. *)
Module Monitor.

(** A [<td>] as the driver shows it: its text and the [href] that
    [get_attribute] answers for each [<a>] below it, in document
    order ([None] when the attribute is missing). *)
Record cell : Type :=
  { cell_text : string;
    cell_anchors : list (option string) }.

(** What the browser shows while one page of the table is up. *)
Record page_view : Type :=
  { pv_rows : result (list (list cell));
      (* the [<tr>]s of the body with their [<td>]s; [Raise] when a
         driver call fails while they are read *)
    pv_has_next : result bool;
      (* [_has_next_page()]: it handles a missing button only *)
    pv_click_next : bool
      (* [_click_next_page()] *) }.

(** What the outside world answers during one cycle. *)
Record world : Type :=
  { w_init_driver : bool;             (* [_init_driver()] *)
    w_open : result unit;             (* [driver.get(url)] and the tab click *)
    w_wait_for_table : result bool;   (* [_wait_for_table()] *)
    w_header_texts : result (list string);  (* text of each [<th>] *)
    w_page : nat -> page_view;        (* the table, page by page *)
    w_now : string;                   (* [datetime.now().isoformat()] *)
    w_write_opens : bool;             (* [open(filepath, 'w')] succeeds *)
    w_write_dumps : bool;             (* [json.dump] succeeds *)
    w_removable : string -> bool      (* [os.remove(path)] succeeds *) }.

Inductive kind : Type :=
| AnnouncementsMonitor (market_type : string)
| CRDMonitor.

(** The fields [__init__] fixes. *)
Record monitor : Type :=
  { mon_kind : kind;
    output_dir : string }.

(** The fields that change. *)
Record state : Type :=
  { driver : bool;                 (* [self.driver] is set *)
    last_data : option json;
    fs : disk }.

Definition url (k : kind) : string :=
  match k with
  | AnnouncementsMonitor _ =>
      "https://www.nseindia.com/companies-listing/corporate-filings-announcements"
  | CRDMonitor =>
      "https://www.nseindia.com/companies-listing/debt-centralised-database/crd"
  end.

Definition default_headers (k : kind) : list string :=
  match k with
  | AnnouncementsMonitor _ =>
      ["SYMBOL"; "COMPANY NAME"; "SUBJECT"; "DETAILS"; "ATTACHMENT"; "XBRL";
       "BROADCAST DATE/TIME"]
  | CRDMonitor =>
      ["COMPANY NAME"; "ISIN"; "NAME OF CREDIT RATING AGENCY"; "CREDIT RATING";
       "RATING ACTION"; "DATE OF CREDIT RATING"; "REPORTING DATE";
       "BROADCAST DATE/TIME"]
  end.

(** The safety limit of the page loop. *)
Definition page_limit (k : kind) : nat :=
  match k with
  | AnnouncementsMonitor _ => 100%nat
  | CRDMonitor => 50%nat
  end.

(** [_init_driver()]: the handle is replaced on success and kept
    otherwise. *)
Definition init_driver (w : world) (st : state) : state * bool :=
  if w_init_driver w
  then ({| driver := true; last_data := last_data st; fs := fs st |}, true)
  else (st, false).

(** [_extract_table_headers()]. *)
Definition extract_table_headers (w : world) : list string :=
  match w_header_texts w with
  | Ok texts =>
      map Py.strip
        (List.filter (fun t => negb (String.eqb (Py.strip t) "")) texts)
  | Raise _ => []
  end.

(** The [type] the announcements monitor gives a link. *)
Definition link_type (href : string) : string :=
  if Py.contains ".pdf" (Py.lower href) then "pdf"
  else if Py.contains "xbrl" (Py.lower href) then "xbrl"
  else "link".

(** The body of the loop over the cells of a row: the text, replaced
    by a link object when [find_element] finds an [<a>] whose [href]
    is truthy. *)
Definition extract_cell (k : kind) (c : cell) : json :=
  let text := Py.strip (cell_text c) in
  match cell_anchors c with
  | [] => JStr text                       (* NoSuchElementException *)
  | href :: _ =>
      match href with
      | Some (String _ _ as h) =>
          match k with
          | AnnouncementsMonitor _ =>
              JObj [ ("text", JStr text); ("link", JStr h);
                     ("type", JStr (link_type h)) ]
          | CRDMonitor =>
              JObj [ ("text", JStr text); ("link", JStr h) ]
          end
      | _ => JStr text
      end
  end.

(** [_extract_table_data()]: rows without cells are skipped; any
    failure gives the empty list. *)
Definition extract_table_data (k : kind) (pv : page_view) : list (list json) :=
  match pv_rows pv with
  | Ok rows =>
      let with_cells := List.filter (fun cells => negb (Nat.eqb (length cells) 0)) rows in
      List.filter (fun row_data => negb (Nat.eqb (length row_data) 0))
        (map (map (extract_cell k)) with_cells)
  | Raise _ => []
  end.

(** [max_pages and page > max_pages]. *)
Definition over_max_pages (max_pages : option Z) (page : nat) : bool :=
  match max_pages with
  | None => false
  | Some m => negb (m =? 0) && (Z.of_nat page >? m)
  end.

(** The [while True] loop of [scrape_all_pages], entered with the
    page counter and the rows read so far.  The counter grows by one
    each round and the loop leaves once it passes [page_limit], so
    [fuel] rounds are enough when [page + fuel] exceeds the limit
    (see [scrape_loop_fuel]). *)
Fixpoint scrape_loop (k : kind) (w : world) (max_pages : option Z)
    (fuel page : nat) (all_data : list (list json))
    : result (list (list json) * nat) :=
  match fuel with
  | O => Ok (all_data, page)
  | S fuel' =>
      if over_max_pages max_pages page then Ok (all_data, page)
      else
        let page_data := extract_table_data k (w_page w page) in
        let all_data := all_data ++ page_data in
        do more <- pv_has_next (w_page w page) ;;
        if negb more then Ok (all_data, page)
        else if negb (pv_click_next (w_page w page)) then Ok (all_data, page)
        else
          let page := S page in
          if (page_limit k <? page)%nat then Ok (all_data, page)
          else scrape_loop k w max_pages fuel' page all_data
  end.

(** [enumerate(l)]. *)
Definition enumerate {A} (l : list A) : list (nat * A) :=
  combine (seq 0 (length l)) l.

(** [str(n)] for a column number. *)
Definition str_of_nat (n : nat) : string :=
  NilZero.string_of_uint (Nat.to_uint n).

(** One round of "Convert to structured format": the dict a row
    becomes under the headers. *)
Definition structure_row (headers : list string) (row : list json)
    : list (string * json) :=
  if (length headers <=? length row)%nat then
    fold_left
      (fun row_dict '(i, header) =>
         Py.dict_set row_dict header
           (if (i <? length row)%nat then nth i row JNull else JStr ""))
      (enumerate headers) []
  else
    fold_left
      (fun row_dict '(i, value) =>
         let header :=
           if (i <? length headers)%nat then nth i headers ""
           else "Column_" +:+ str_of_nat (i + 1) in
         Py.dict_set row_dict header value)
      (enumerate row) [].

(** The [metadata] dict of the result object. *)
Definition metadata (k : kind) (now : string) (records page : nat)
    (headers : list string) : list (string * json) :=
  [ ("scrape_timestamp", JStr now);
    ("total_records", JNum (Z.of_nat records));
    ("total_pages", JNum (Z.of_nat page)) ]
  ++ match k with
     | AnnouncementsMonitor market_type => [ ("market_type", JStr market_type) ]
     | CRDMonitor => []
     end
  ++ [ ("source_url", JStr (url k));
       ("headers", JList (map JStr headers)) ].

(** [scrape_all_pages(max_pages)]: the result object, or [None] when
    a step fails. *)
Definition scrape_all_pages (m : monitor) (w : world) (max_pages : option Z)
    (st : state) : state * option json :=
  let k := mon_kind m in
  let '(st, ready) := if driver st then (st, true) else init_driver w st in
  if negb ready then (st, None)
  else
    let answer :=
      do _ <- w_open w ;;
      do found <- w_wait_for_table w ;;
      if negb found then Ok None
      else
        let headers :=
          match extract_table_headers w with
          | [] => default_headers k
          | hs => hs
          end in
        do r <- scrape_loop k w max_pages (S (page_limit k)) 1 [] ;;
        let '(all_data, page) := r in
        let structured_data := map (structure_row headers) all_data in
        Ok (Some (JObj
          [ ("metadata",
             JObj (metadata k (w_now w) (length structured_data) page headers));
            ("data", JList (map JObj structured_data)) ])) in
    (st, match answer with
         | Ok v => v
         | Raise _ => None
         end).

(** The file name of the snapshot. *)
Definition latest_name (k : kind) : string :=
  match k with
  | AnnouncementsMonitor market_type =>
      "latest_" +:+ Py.lower market_type +:+ ".json"
  | CRDMonitor => "latest.json"
  end.

Definition latest_path (m : monitor) : string :=
  Py.path_join (output_dir m) (latest_name (mon_kind m)).

(** [save_latest(data)]: nothing for falsy data; a failed [open]
    leaves the file, a failed [json.dump] leaves it cut short. *)
Definition save_latest (m : monitor) (w : world) (data : option json)
    (st : state) : state :=
  match data with
  | None => st
  | Some d =>
      if negb (Py.truthy d) then st
      else if negb (w_write_opens w) then st
      else
        {| driver := driver st;
           last_data := last_data st;
           fs := <[ latest_path m :=
                    if w_write_dumps w then FileJson d else FileGarbage ]> (fs st) |}
  end.

(** The name of [path] when it lies directly in [dir]: what
    [os.listdir(dir)] lists it as. *)
Definition name_in_dir (dir path : string) : option string :=
  let pre := Py.path_join dir "" in
  if String.prefix pre path then
    let name :=
      String.substring (String.length pre)
        (String.length path - String.length pre) path in
    if String.eqb name "" || Py.contains "/" name then None else Some name
  else None.

(** The files the clean-up leaves alone. *)
Definition keeps (k : kind) (filename : string) : bool :=
  match k with
  | AnnouncementsMonitor market_type =>
      String.prefix ("latest_" +:+ Py.lower market_type) filename
  | CRDMonitor => String.eqb filename "latest.json"
  end.

(** Whether the loop of [cleanup_old_files] removes [path]. *)
Definition cleanup_removes (m : monitor) (w : world) (path : string) : bool :=
  match name_in_dir (output_dir m) path with
  | None => false
  | Some filename =>
      Py.endswith ".json" (Py.lower filename)
      && negb (keeps (mon_kind m) filename)
      && w_removable w (Py.path_join (output_dir m) filename)
  end.

(** [cleanup_old_files()].  The directory is the one [__init__]
    made, so listing it is taken to succeed. *)
Definition cleanup_old_files (m : monitor) (w : world) (st : state) : state :=
  {| driver := driver st;
     last_data := last_data st;
     fs := filter (fun kv => cleanup_removes m w (fst kv) = false) (fs st) |}.

(** The body of [run_single_scrape] around the call of
    [scrape_all_pages], whose outcome is [call]: the state it left and
    its answer, or an exception. *)
Definition run_cycle (m : monitor) (w : world)
    (call : result (state * option json)) (st : state)
    : state * option json :=
  match call with
  | Ok (st1, data) =>
      if match data with Some d => Py.truthy d | None => false end then
        let st2 := save_latest m w data st1 in
        let st3 := cleanup_old_files m w st2 in
        ({| driver := driver st3; last_data := data; fs := fs st3 |}, data)
      else (st1, None)
  | Raise _ =>
      (fst (init_driver w st), None)
  end.

(** [run_single_scrape(max_pages)]. *)
Definition run_single_scrape (m : monitor) (w : world) (max_pages : option Z)
    (st : state) : state * option json :=
  run_cycle m w (Ok (scrape_all_pages m w max_pages st)) st.

End Monitor.

(** ** heatmap_api.py and heatmap_scraper.py *)

Module Heatmap.

Section remove_duplicates.
Context {A : Type} (key : A -> string).

(** The loop the four duplicate removals share: [seen] is the set
    of keys met so far, [unique] the entries kept. *)
Fixpoint unique_loop (items : list A) (seen : gset string)
    (unique : list A) : list A :=
  match items with
  | [] => unique
  | x :: rest =>
      if decide (elem_of (key x) seen) then unique_loop rest seen unique
      else unique_loop rest (union (singleton (key x)) seen) (unique ++ [x])
  end.

Definition remove_duplicates (items : list A) : list A :=
  unique_loop items empty [].

(** The entries of [l] whose key none of the entries before them
    has, [earlier] being what came before [l]. *)
Fixpoint keep_first (earlier l : list A) : list A :=
  match l with
  | [] => []
  | x :: rest =>
      (if existsb (fun y => String.eqb (key y) (key x)) earlier
       then [] else [x])
      ++ keep_first (earlier ++ [x]) rest
  end.
End remove_duplicates.

(** A scraped tile: its symbol and its other keys. *)
Record stock : Type :=
  { symbol : string;
    stock_fields : list (string * json) }.

(** An index card: its name and its other keys. *)
Record index_card : Type :=
  { name : string;
    card_fields : list (string * json) }.

(** What [HeatmapService.get_heatmap] returns. *)
Record heatmap : Type :=
  { index_name : string;
    category : string;
    total_stocks : Z;
    scrape_timestamp : string;
    stocks : list stock }.

(** [HeatmapService.get_heatmap], from "Final duplicate removal" on:
    [collected] is the list the scraping methods built. *)
Definition get_heatmap (index category now : string)
    (collected : list stock) : heatmap :=
  let unique_stocks := remove_duplicates symbol collected in
  {| index_name := index;
     category := category;
     total_stocks := Z.of_nat (length unique_stocks);
     scrape_timestamp := now;
     stocks := unique_stocks |}.

(** [HeatmapService.get_indices], from "Remove duplicates" on. *)
Definition get_indices (indices : list index_card) : list index_card :=
  remove_duplicates name indices.

(** What [HeatmapScraper.scrape_heatmap] returns. *)
Record heatmap_data : Type :=
  { hd_scrape_timestamp : string;
    hd_stocks : list stock }.

(** [HeatmapScraper.scrape_heatmap], from "Remove duplicates based on
    symbol" on. *)
Definition scrape_heatmap (collected : heatmap_data) : heatmap_data :=
  {| hd_scrape_timestamp := hd_scrape_timestamp collected;
     hd_stocks := remove_duplicates symbol (hd_stocks collected) |}.

(** [HeatmapScraper.get_index_cards], from "Remove duplicates
    based on name" on. *)
Definition get_index_cards (index_cards : list index_card)
    : list index_card :=
  remove_duplicates name index_cards.

End Heatmap.

(** ** What the claims speak of *)

(** A snapshot file as the monitors write it: an object whose [data]
    is the list [D] and whose [metadata] (empty when left out) is the
    object [md]. *)
Definition snapshot_of (js : json) (md : list (string * json))
    (D : list json) : Prop :=
  exists kvs,
    js = JObj kvs /\
    Py.dict_get kvs "data" = Some (JList D) /\
    Py.dict_get_default kvs "metadata" (JObj []) = JObj md.

(** The records [paginate_data] returns for page [p]. *)
Definition page_records {A} (D : list A) (p k : Z) : list A :=
  match Api.paginate_data D p k with
  | Ok (s, _, _) => s
  | Raise _ => []
  end.

(** The page count [paginate_data] reports. *)
Definition page_count {A} (D : list A) (k : Z) : Z :=
  match Api.paginate_data D 1 k with
  | Ok (_, _, total_pages) => total_pages
  | Raise _ => 0
  end.

(** [D[a : a + k]] for indexes that are not negative. *)
Definition window {A} (D : list A) (a k : Z) : list A :=
  take (Z.to_nat k) (drop (Z.to_nat a) D).

(** The message a route puts in its 404 answer. *)
Definition route_message (ep : Api.endpoint) (req : Api.request) : string :=
  match ep with
  | Api.EventCalendar =>
      "Event calendar data not found. Please ensure the monitor is running."
  | Api.Announcements =>
      "Announcements data not found for market: " +:+ Api.get_market req +:+ ". "
      +:+ "Available markets: equity, sme, debt, mf. "
      +:+ "Please ensure the monitor is running for this market type."
  | Api.Crd => "CRD data not found. Please ensure the monitor is running."
  | Api.CreditRating =>
      "Credit rating data not found for market: " +:+ Api.get_market req +:+ ". "
      +:+ "Available markets: equity, sme. "
      +:+ "Please ensure the monitor is running for this market type."
  end.

(** [needle] occurs in [hay] up to the case of ASCII letters. *)
Definition occurs_ci (needle hay : string) : Prop :=
  exists pre mid post, hay = pre +:+ mid +:+ post /\ Py.lower mid = needle.

(** An object with exactly the keys [text], [link] and [type]. *)
Definition link_object (v : json) : Prop :=
  exists text link type,
    v = JObj [ ("text", JStr text); ("link", JStr link); ("type", JStr type) ].

(** The cell has some [<a>] with a non-empty [href]. *)
Definition has_hyperlink (c : Monitor.cell) : Prop :=
  exists href, In (Some href) (Monitor.cell_anchors c) /\ href <> "".

(** The [href] of the first [<a>] of the cell is [href], not empty. *)
Definition first_link (c : Monitor.cell) (href : string) : Prop :=
  head (Monitor.cell_anchors c) = Some (Some href) /\ href <> "".

(** The dict the assignments [d[k] = v], made in the order of [kvs],
    build from [acc]. *)
Definition dict_of_pairs (acc kvs : list (string * json))
    : list (string * json) :=
  fold_left (fun d kv => Py.dict_set d (fst kv) (snd kv)) kvs acc.

(** ** Worked inputs *)

Definition sample_rows : list json :=
  [ JObj [ ("COMPANY NAME", JStr "Alpha Ltd"); ("CREDIT RATING", JStr "AAA") ];
    JObj [ ("COMPANY NAME", JStr "Beta Ltd"); ("CREDIT RATING", JStr "AA+") ];
    JObj [ ("COMPANY NAME", JStr "Gamma Ltd"); ("CREDIT RATING", JStr "A") ] ].

Definition sample_metadata : list (string * json) :=
  [ ("scrape_timestamp", JStr "2025-01-06T10:00:00");
    ("total_records", JNum 3);
    ("total_pages", JNum 1);
    ("source_url", JStr (Monitor.url Monitor.CRDMonitor));
    ("headers", JList [ JStr "COMPANY NAME"; JStr "CREDIT RATING" ]) ].

Definition sample_snapshot : json :=
  JObj [ ("metadata", JObj sample_metadata); ("data", JList sample_rows) ].

(** A disk on which only the CRD monitor has written. *)
Definition sample_disk : disk :=
  {[ Api.crd_path := FileJson sample_snapshot ]}.

Definition sample_request (page per_page : Z) : Api.request :=
  {| Api.arg_page := Some page;
     Api.arg_per_page := Some per_page;
     Api.arg_market := Some "SME" |}.

Definition sample_monitor : Monitor.monitor :=
  {| Monitor.mon_kind := Monitor.CRDMonitor; Monitor.output_dir := "crd_data" |}.

Definition sample_state : Monitor.state :=
  {| Monitor.driver := false; Monitor.last_data := None;
     Monitor.fs := sample_disk |}.

(** A cycle in which the browser does not start. *)
Definition world_down : Monitor.world :=
  {| Monitor.w_init_driver := false;
     Monitor.w_open := Raise DriverError;
     Monitor.w_wait_for_table := Raise DriverError;
     Monitor.w_header_texts := Raise DriverError;
     Monitor.w_page := fun _ =>
       {| Monitor.pv_rows := Raise DriverError;
          Monitor.pv_has_next := Raise DriverError;
          Monitor.pv_click_next := false |};
     Monitor.w_now := "2025-01-06T10:05:00";
     Monitor.w_write_opens := true;
     Monitor.w_write_dumps := true;
     Monitor.w_removable := fun _ => true |}.

(** A cycle in which the table has one page of one row. *)
Definition world_up : Monitor.world :=
  {| Monitor.w_init_driver := true;
     Monitor.w_open := Ok tt;
     Monitor.w_wait_for_table := Ok true;
     Monitor.w_header_texts := Ok [ "COMPANY NAME"; " CREDIT RATING " ];
     Monitor.w_page := fun _ =>
       {| Monitor.pv_rows := Ok
            [ [ {| Monitor.cell_text := "Delta Ltd";
                   Monitor.cell_anchors := [ Some "https://example.org/delta" ] |};
                {| Monitor.cell_text := " BBB ";
                   Monitor.cell_anchors := [] |} ] ];
          Monitor.pv_has_next := Ok false;
          Monitor.pv_click_next := false |};
     Monitor.w_now := "2025-01-06T10:05:00";
     Monitor.w_write_opens := true;
     Monitor.w_write_dumps := true;
     Monitor.w_removable := fun _ => true |}.

(** A cell whose first [<a>] is an anchor without [href] and whose
    second links a PDF. *)
Definition two_anchor_cell : Monitor.cell :=
  {| Monitor.cell_text := "Attachment";
     Monitor.cell_anchors := [ None; Some "https://example.org/notice.pdf" ] |}.

Definition pdf_cell : Monitor.cell :=
  {| Monitor.cell_text := " Attachment ";
     Monitor.cell_anchors := [ Some "https://example.org/NOTICE.PDF" ] |}.

(** ** api.py: the health route *)

Module ApiStatus.

(** [os.path.exists(path)]. *)
Definition path_exists (fs : disk) (path : string) : bool :=
  match fs !! path with
  | Some _ => true
  | None => false
  end.

(** The [files] dict of [health]. *)
Definition health_files (fs : disk) : list (string * bool) :=
  [ ("event_calendar", path_exists fs "event_calendar_data/latest.json");
    ("announcements_equity",
     path_exists fs "announcements_data/latest_equity.json");
    ("crd", path_exists fs "crd_data/latest.json");
    ("credit_rating_equity",
     path_exists fs "credit_rating_data/latest_equity.json") ].

(** [sum(files.values())]: [True] counts as one. *)
Definition ready_count (files : list (string * bool)) : nat :=
  list_sum (map (fun kv : string * bool => if snd kv then 1%nat else 0%nat) files).

(** [GET /health]; [now] is [datetime.now().isoformat()]. *)
Definition health (fs : disk) (now : string) : Api.response :=
  let files := health_files fs in
  let ready := ready_count files in
  let all_healthy := forallb snd files in
  {| Api.status := 200;
     Api.body := JObj
       [ ("status",
          JStr (if all_healthy then "healthy"
                else if (0 <? ready)%nat then "starting"
                else "initializing"));
         ("timestamp", JStr now);
         ("monitors",
          JObj (map (fun kv : string * bool => (fst kv, JBool (snd kv))) files));
         ("ready", JStr (Monitor.str_of_nat ready +:+ "/4")) ] |}.

End ApiStatus.

(** ** The monitoring loop *)

Module Schedule.

(** The calls of [run_single_scrape] that [start_monitoring] makes,
    one for each world of [ticks]: the first at once, the others as
    the schedule fires. *)
Fixpoint run_cycles (m : Monitor.monitor) (ticks : list Monitor.world)
    (max_pages : option Z) (st : Monitor.state) : Monitor.state :=
  match ticks with
  | [] => st
  | w :: rest =>
      run_cycles m rest max_pages
        (fst (Monitor.run_single_scrape m w max_pages st))
  end.

(** [start_monitoring(interval_minutes, max_pages)] up to a number of
    ticks: nothing runs when the first [_init_driver()], answered by
    [w0], fails. *)
Definition start_monitoring (m : Monitor.monitor) (w0 : Monitor.world)
    (ticks : list Monitor.world) (max_pages : option Z) (st : Monitor.state)
    : Monitor.state :=
  let '(st1, ready) := Monitor.init_driver w0 st in
  if negb ready then st1 else run_cycles m ticks max_pages st1.

End Schedule.

(** ** heatmap_api.py: the routes *)

Module HeatmapApi.

(** [HeatmapService.categories]. *)
Definition categories : list (string * string) :=
  [ ("broad-market", "Broad Market Indices");
    ("sectoral", "Sectoral Indices");
    ("thematic", "Thematic Indices");
    ("strategy", "Strategy Indices") ].

(** [category in heatmap_service.categories]. *)
Definition known_category (category : string) : bool :=
  existsb (String.eqb category) (map fst categories).

(** [heatmap_service.categories[category]]. *)
Definition category_name (category : string) : option string :=
  snd <$> List.find (fun kv : string * string => String.eqb (fst kv) category)
            categories.

(** [sep.join(parts)]. *)
Fixpoint join (sep : string) (parts : list string) : string :=
  match parts with
  | [] => ""
  | [p] => p
  | p :: rest => p +:+ sep +:+ join sep rest
  end.

(** The query string: [None] is a parameter that is absent. *)
Record request : Type :=
  { arg_category : option string;
    arg_index : option string }.

(** The 400 answer both routes give for a category they do not
    know. *)
Definition invalid_category : Api.response :=
  {| Api.status := 400;
     Api.body := JObj
       [ ("success", JBool false);
         ("error", JStr ("Invalid category. Use: "
                         +:+ join ", " (map fst categories))) ] |}.

(** An index card and a tile as JSON. *)
Definition card_json (c : Heatmap.index_card) : json :=
  JObj (("name", JStr (Heatmap.name c)) :: Heatmap.card_fields c).

Definition stock_json (s : Heatmap.stock) : json :=
  JObj (("symbol", JStr (Heatmap.symbol s)) :: Heatmap.stock_fields s).

Definition heatmap_json (h : Heatmap.heatmap) : json :=
  JObj [ ("index_name", JStr (Heatmap.index_name h));
         ("category", JStr (Heatmap.category h));
         ("total_stocks", JNum (Heatmap.total_stocks h));
         ("scrape_timestamp", JStr (Heatmap.scrape_timestamp h));
         ("stocks", JList (map stock_json (Heatmap.stocks h))) ].

(** [HeatmapService.get_indices(category_key)]: [found] is what the
    selectors collect on the page of a category, [None] when a step
    before them fails or anything raises. *)
Definition service_get_indices
    (found : string -> option (list Heatmap.index_card))
    (category_key : string) : option (list Heatmap.index_card) :=
  Heatmap.get_indices <$> found category_key.

(** [HeatmapService.get_heatmap(category_key, index_name)]: [found] is
    what the scraping methods collect once the index is clicked;
    a category outside the four is given up. *)
Definition service_get_heatmap
    (found : string -> string -> option (list Heatmap.stock))
    (now : string) (category_key index_name : string)
    : option Heatmap.heatmap :=
  match category_name category_key with
  | None => None
  | Some cname =>
      Heatmap.get_heatmap index_name cname now <$> found category_key index_name
  end.

(** [GET /indices]. *)
Definition get_indices (service : string -> option (list Heatmap.index_card))
    (now : string) (req : request) : Api.response :=
  let category := default "broad-market" (arg_category req) in
  if negb (known_category category) then invalid_category
  else
    match service category with
    | None =>
        {| Api.status := 500;
           Api.body := JObj
             [ ("success", JBool false);
               ("error", JStr "Failed to fetch indices. Please try again.") ] |}
    | Some indices =>
        Api.jsonify (JObj
          [ ("success", JBool true);
            ("category", JStr category);
            ("category_name",
             match category_name category with
             | Some n => JStr n
             | None => JNull
             end);
            ("total", JNum (Z.of_nat (length indices)));
            ("indices", JList (map card_json indices));
            ("timestamp", JStr now) ])
    end.

(** [GET /heatmap]. *)
Definition get_heatmap (service : string -> string -> option Heatmap.heatmap)
    (req : request) : Api.response :=
  let category := default "broad-market" (arg_category req) in
  match arg_index req with
  | Some (String _ _ as index_name) =>
      if negb (known_category category) then invalid_category
      else
        match service category index_name with
        | None =>
            {| Api.status := 500;
               Api.body := JObj
                 [ ("success", JBool false);
                   ("error", JStr ("Failed to fetch heatmap for " +:+ index_name
                                   +:+ ". Index may not exist.")) ] |}
        | Some heatmap_data =>
            Api.jsonify (JObj [ ("success", JBool true);
                                ("data", heatmap_json heatmap_data) ])
        end
  | _ =>
      {| Api.status := 400;
         Api.body := JObj
           [ ("success", JBool false);
             ("error", JStr "Missing required parameter: index") ] |}
  end.

End HeatmapApi.

(** ** Terms of the further properties *)

(** The key of a route's file in the [monitors] object of
    [/health]. *)
Definition health_key (ep : Api.endpoint) : string :=
  match ep with
  | Api.EventCalendar => "event_calendar"
  | Api.Announcements => "announcements_equity"
  | Api.Crd => "crd"
  | Api.CreditRating => "credit_rating_equity"
  end.

(** The headers a scrape works with: those of the page, or the
    built-in ones when the page shows none. *)
Definition scraped_headers (k : Monitor.kind) (w : Monitor.world) : list string :=
  match Monitor.extract_table_headers w with
  | [] => Monitor.default_headers k
  | hs => hs
  end.

(** The rows of pages 1 to [c] of the table, in order. *)
Definition rows_of_pages (k : Monitor.kind) (w : Monitor.world) (c : nat)
    : list (list json) :=
  concat (map (fun i => Monitor.extract_table_data k (Monitor.w_page w i))
            (seq 1 c)).

(** The records those rows become. *)
Definition records_of_pages (k : Monitor.kind) (w : Monitor.world) (c : nat)
    : list json :=
  map (fun row => JObj (Monitor.structure_row (scraped_headers k w) row))
    (rows_of_pages k w c).

(** What a route can serve without failing: no file, a file that does
    not parse, or a snapshot object. *)
Definition servable (f : option file_data) : Prop :=
  f = None \/ f = Some FileGarbage \/
  exists js md D, f = Some (FileJson js) /\ snapshot_of js md D.

(** An object with exactly the keys [text] and [link]. *)
Definition plain_link_object (v : json) : Prop :=
  exists text link, v = JObj [ ("text", JStr text); ("link", JStr link) ].

(** A request without parameters. *)
Definition default_request : Api.request :=
  {| Api.arg_page := None; Api.arg_per_page := None; Api.arg_market := None |}.

(** The four paged routes. *)
Definition all_endpoints : list Api.endpoint :=
  [ Api.EventCalendar; Api.Announcements; Api.Crd; Api.CreditRating ].

(** The snapshot file of a route for the equity market is on the
    disk. *)
Definition present (fs : disk) (ep : Api.endpoint) : bool :=
  ApiStatus.path_exists fs (Api.route_path ep default_request).

(** The request names an index. *)
Definition index_given (req : HeatmapApi.request) : Prop :=
  exists c s, HeatmapApi.arg_index req = Some (String c s).

(** The category a heat map request asks for. *)
Definition asked_category (req : HeatmapApi.request) : string :=
  default "broad-market" (HeatmapApi.arg_category req).

(** ** More worked inputs *)

(** Disks whose CRD snapshot file does not parse, holds a list, and
    holds an object without [data]. *)
Definition garbage_disk : disk := {[ Api.crd_path := FileGarbage ]}.

Definition list_disk : disk :=
  {[ Api.crd_path := FileJson (JList [ JNum 1; JNum 2 ]) ]}.

Definition no_data_disk : disk :=
  {[ Api.crd_path := FileJson (JObj [ ("metadata", JObj sample_metadata) ]) ]}.

(** A state with a running browser and an empty disk. *)
Definition fresh_state : Monitor.state :=
  {| Monitor.driver := true; Monitor.last_data := None; Monitor.fs := ∅ |}.

(** A cycle like [world_up] in which the snapshot file cannot be
    opened. *)
Definition world_readonly : Monitor.world :=
  {| Monitor.w_init_driver := Monitor.w_init_driver world_up;
     Monitor.w_open := Monitor.w_open world_up;
     Monitor.w_wait_for_table := Monitor.w_wait_for_table world_up;
     Monitor.w_header_texts := Monitor.w_header_texts world_up;
     Monitor.w_page := Monitor.w_page world_up;
     Monitor.w_now := Monitor.w_now world_up;
     Monitor.w_write_opens := false;
     Monitor.w_write_dumps := true;
     Monitor.w_removable := Monitor.w_removable world_up |}.

(** The result object of a scrape in [world_up]. *)
Definition world_up_result : json :=
  JObj
    [ ("metadata", JObj
        [ ("scrape_timestamp", JStr "2025-01-06T10:05:00");
          ("total_records", JNum 1);
          ("total_pages", JNum 1);
          ("source_url", JStr (Monitor.url Monitor.CRDMonitor));
          ("headers", JList [ JStr "COMPANY NAME"; JStr "CREDIT RATING" ]) ]);
      ("data", JList
        [ JObj [ ("COMPANY NAME",
                  JObj [ ("text", JStr "Delta Ltd");
                         ("link", JStr "https://example.org/delta") ]);
                 ("CREDIT RATING", JStr "BBB") ] ]) ].

(** A disk with an old timestamped file beside the snapshot. *)
Definition cluttered_state : Monitor.state :=
  {| Monitor.driver := true; Monitor.last_data := None;
     Monitor.fs := <[ "crd_data/crd_20250101_000000.json" := FileJson JNull ]>
                   sample_disk |}.

(** Tiles as the scraping methods may collect them, one symbol
    twice. *)
Definition sample_tiles : list Heatmap.stock :=
  [ {| Heatmap.symbol := "TCS"; Heatmap.stock_fields := [ ("price", JStr "4100") ] |};
    {| Heatmap.symbol := "INFY"; Heatmap.stock_fields := [ ("price", JStr "1900") ] |};
    {| Heatmap.symbol := "TCS"; Heatmap.stock_fields := [ ("price", JStr "4101") ] |} ].

Definition sample_cards : list Heatmap.index_card :=
  [ {| Heatmap.name := "NIFTY 50"; Heatmap.card_fields := [ ("value", JStr "24000") ] |};
    {| Heatmap.name := "NIFTY 50"; Heatmap.card_fields := [ ("value", JStr "") ] |};
    {| Heatmap.name := "NIFTY NEXT 50"; Heatmap.card_fields := [] |} ].

Definition heatmap_request : HeatmapApi.request :=
  {| HeatmapApi.arg_category := None; HeatmapApi.arg_index := Some "NIFTY 50" |}.

Definition bad_heatmap_request : HeatmapApi.request :=
  {| HeatmapApi.arg_category := Some "banks"; HeatmapApi.arg_index := None |}.

(** ** Slices and pages *)

Section Pagination.
Context {A : Type}.
Implicit Types (D : list A) (p k : Z).

Lemma slice_window D a k :
  0 <= a -> 0 <= k -> Py.slice D a (a + k) = window D a k.
Proof.
  intros Ha Hk. unfold Py.slice, Py.slice_index, window.
  destruct (Z.ltb_spec a 0) as [|_]; [lia|].
  destruct (Z.ltb_spec (a + k) 0) as [|_]; [lia|].
  set (n := Z.of_nat (length D)).
  destruct (Z.le_gt_cases n a) as [Hge|Hlt].
  - rewrite (Z.min_r a n) by lia.
    rewrite (Z.min_r (a + k) n) by lia.
    rewrite !drop_ge by (subst n; lia).
    by rewrite !take_nil.
  - rewrite (Z.min_l a n) by lia.
    destruct (Z.le_gt_cases (a + k) n) as [Hin|Hout].
    + rewrite Z.min_l by lia. f_equal. lia.
    + rewrite Z.min_r by lia.
      rewrite !take_ge; [done| |]; rewrite length_drop; subst n; lia.
Qed.

Lemma window_lookup D a k (i : nat) :
  0 <= a -> 0 <= k ->
  window D a k !! i =
    if decide (Z.of_nat i < k) then D !! (Z.to_nat a + i)%nat else None.
Proof.
  intros Ha Hk. unfold window. case_decide.
  - rewrite lookup_take_lt by lia. by rewrite lookup_drop.
  - apply lookup_take_ge. lia.
Qed.

Lemma window_length D a k :
  0 <= a -> 0 <= k ->
  Z.of_nat (length (window D a k)) = Z.min k (Z.max 0 (Z.of_nat (length D) - a)).
Proof.
  intros Ha Hk. unfold window. rewrite length_take, length_drop. lia.
Qed.

(** The ceiling of [n / k], as the code computes it. *)
Lemma ceiling_bounds n k :
  1 <= k -> let t := (n + k - 1) / k in k * (t - 1) < n <= k * t.
Proof.
  intros Hk t.
  pose proof (Z.div_mod (n + k - 1) k ltac:(lia)) as Hdm.
  pose proof (Z.mod_pos_bound (n + k - 1) k ltac:(lia)) as Hb.
  fold t in Hdm. lia.
Qed.

Lemma paginate_data_ok D p k :
  1 <= p -> 1 <= k ->
  Api.paginate_data D p k =
    Ok (window D ((p - 1) * k) k, Z.of_nat (length D),
        (Z.of_nat (length D) + k - 1) / k).
Proof.
  intros Hp Hk. unfold Api.paginate_data. destruct D as [|x D'].
  - unfold window. rewrite drop_nil, take_nil.
    change (Z.of_nat (length (@nil A))) with 0.
    rewrite Z.add_0_l, Z.div_small by lia. done.
  - destruct (Z.eqb_spec k 0) as [|_]; [lia|].
    rewrite slice_window by nia. done.
Qed.

Lemma paginate_data_returns D p k :
  k <> 0 -> exists s, Api.paginate_data D p k
                    = Ok (s, Z.of_nat (length D), page_count D k).
Proof.
  intros Hk. unfold page_count, Api.paginate_data. destruct D as [|x D'].
  - by exists [].
  - destruct (Z.eqb_spec k 0) as [|_]; [lia|]. eauto.
Qed.

(** [paginate_data] raises on exactly one kind of input. *)
Lemma paginate_data_raises D p k :
  (exists e, Api.paginate_data D p k = Raise e) <-> (k = 0 /\ D <> []).
Proof.
  unfold Api.paginate_data. destruct D as [|x D'].
  - split; [intros [e He]; discriminate | intros [_ H]; done].
  - destruct (Z.eqb_spec k 0) as [->|Hk].
    + split; [done | eauto].
    + split; [intros [e He]; discriminate | intros [H _]; done].
Qed.

Lemma page_records_window D p k :
  1 <= p -> 1 <= k -> page_records D p k = window D ((p - 1) * k) k.
Proof.
  intros Hp Hk. unfold page_records. by rewrite paginate_data_ok.
Qed.

Lemma page_count_ceiling D k :
  1 <= k -> page_count D k = (Z.of_nat (length D) + k - 1) / k.
Proof.
  intros Hk. unfold page_count. by rewrite paginate_data_ok.
Qed.

Lemma take_window D (n : nat) k :
  0 <= k ->
  take (n * Z.to_nat k) D ++ window D (Z.of_nat n * k) k
  = take (S n * Z.to_nat k) D.
Proof.
  intros Hk. unfold window.
  replace (Z.to_nat (Z.of_nat n * k)) with (n * Z.to_nat k)%nat by nia.
  replace (S n * Z.to_nat k)%nat with (n * Z.to_nat k + Z.to_nat k)%nat by lia.
  rewrite take_drop_commute.
  rewrite <- (take_drop (n * Z.to_nat k)
                (take (n * Z.to_nat k + Z.to_nat k) D)) at 2.
  f_equal. rewrite take_take. f_equal. lia.
Qed.

(** The first [n] pages, glued, are the first [n * k] records. *)
Lemma pages_prefix D k (n : nat) :
  1 <= k ->
  concat (map (fun p => page_records D p k) (seqZ 1 (Z.of_nat n)))
  = take (n * Z.to_nat k) D.
Proof.
  intros Hk. induction n as [|n IH].
  - by rewrite seqZ_nil.
  - replace (Z.of_nat (S n)) with (Z.of_nat n + 1) by lia.
    rewrite seqZ_app by lia. rewrite map_app, concat_app, IH.
    rewrite (seqZ_cons (1 + Z.of_nat n) 1) by lia.
    rewrite seqZ_nil by lia. simpl. rewrite app_nil_r.
    rewrite page_records_window by lia.
    replace (1 + Z.of_nat n - 1) with (Z.of_nat n) by lia.
    apply take_window. lia.
Qed.

End Pagination.

(** ** The paged routes *)

Section Routes.
Implicit Types (fs : disk) (req : Api.request) (ep : Api.endpoint).

Lemma route_serve ep fs req :
  Api.route ep fs req
  = Api.serve_snapshot fs (Api.route_path ep req) (route_message ep req)
      (Api.get_page req) (Api.get_per_page req).
Proof. by destruct ep. Qed.

Lemma get_per_page_clamped req : Api.get_per_page req <= 1000.
Proof. unfold Api.get_per_page. lia. Qed.

Lemma snapshot_truthy js md D : snapshot_of js md D -> Py.truthy js = true.
Proof.
  intros (kvs & -> & Hdata & _). destruct kvs; [discriminate | done].
Qed.

Lemma serve_snapshot_absent fs path msg p k :
  fs !! path = None ->
  Api.serve_snapshot fs path msg p k = Api.error_response msg 404.
Proof.
  intros H. unfold Api.serve_snapshot, Api.load_json_file. by rewrite H.
Qed.

Lemma serve_snapshot_paged fs path msg p k js md D :
  Api.load_json_file fs path = Some js ->
  snapshot_of js md D ->
  1 <= p -> 1 <= k ->
  exists meta,
    Api.serve_snapshot fs path msg p k =
    {| Api.status := 200;
       Api.body := JObj
         [ ("success", JBool true);
           ("metadata", meta);
           ("pagination", JObj
             [ ("page", JNum p);
               ("per_page", JNum k);
               ("total_records", JNum (Z.of_nat (length D)));
               ("total_pages", JNum ((Z.of_nat (length D) + k - 1) / k));
               ("has_next", JBool (p <? (Z.of_nat (length D) + k - 1) / k));
               ("has_prev", JBool (p >? 1)) ]);
           ("data", JList (window D ((p - 1) * k) k)) ] |}.
Proof.
  intros Hload Hsnap Hp Hk. unfold Api.serve_snapshot. rewrite Hload.
  rewrite (snapshot_truthy _ _ _ Hsnap). simpl negb. cbv iota.
  destruct Hsnap as (kvs & -> & Hdata & Hmeta).
  cbn [bind]. rewrite Hmeta.
  unfold Py.dict_get_default. rewrite Hdata.
  unfold Api.paginate_json. rewrite paginate_data_ok by done.
  cbn [bind Api.create_response Api.jsonify]. eauto.
Qed.

Lemma serve_snapshot_zero fs path msg p js md D :
  Api.load_json_file fs path = Some js ->
  snapshot_of js md D ->
  D <> [] ->
  Api.serve_snapshot fs path msg p 0 = Api.internal_error.
Proof.
  intros Hload Hsnap HD. unfold Api.serve_snapshot. rewrite Hload.
  rewrite (snapshot_truthy _ _ _ Hsnap). simpl negb. cbv iota.
  destruct Hsnap as (kvs & -> & Hdata & Hmeta).
  cbn [bind]. unfold Py.dict_get_default at 1. rewrite Hdata.
  unfold Api.paginate_json, Api.paginate_data.
  destruct D; [done|]. done.
Qed.

(** A route reads nothing but its snapshot file. *)
Lemma route_reads_only ep fs fs' req :
  fs !! Api.route_path ep req = fs' !! Api.route_path ep req ->
  Api.route ep fs req = Api.route ep fs' req.
Proof.
  intros H. rewrite !route_serve.
  unfold Api.serve_snapshot, Api.load_json_file. by rewrite H.
Qed.

End Routes.

(** ** Theorems on the API *)

(** C1: a snapshot with data list [D], asked for page [p >= 1] with
    [per_page] [k] between 1 and 1000 (the clamp), is answered by each of
    the four routes with status 200 and an object whose keys are exactly
    [success], [metadata], [pagination] and [data]: [success] is true,
    [data] is [D[(p-1)*k : p*k]], [total_records] is [|D|],
    [total_pages] is the ceiling of [|D| / k], [has_next] says [p <
    total_pages] and [has_prev] says [p > 1]. *)
Theorem paged_response ep fs req js md D :
  Api.load_json_file fs (Api.route_path ep req) = Some js ->
  snapshot_of js md D ->
  1 <= Api.get_page req ->
  1 <= Api.get_per_page req ->
  let p := Api.get_page req in
  let k := Api.get_per_page req in
  exists meta pagination (tp : Z) (has_next has_prev : bool),
    Api.route ep fs req =
      {| Api.status := 200;
         Api.body := JObj [ ("success", JBool true); ("metadata", meta);
                            ("pagination", JObj pagination);
                            ("data", JList (window D ((p - 1) * k) k)) ] |} /\
    k <= 1000 /\
    (forall i : nat,
       window D ((p - 1) * k) k !! i =
       if decide (Z.of_nat i < k) then D !! (Z.to_nat ((p - 1) * k) + i)%nat
       else None) /\
    Py.dict_get pagination "total_records" = Some (JNum (Z.of_nat (length D))) /\
    Py.dict_get pagination "total_pages" = Some (JNum tp) /\
    k * (tp - 1) < Z.of_nat (length D) <= k * tp /\
    Py.dict_get pagination "has_next" = Some (JBool has_next) /\
    (has_next = true <-> p < tp) /\
    Py.dict_get pagination "has_prev" = Some (JBool has_prev) /\
    (has_prev = true <-> p > 1).
Proof.
  intros Hload Hsnap Hp Hk p k.
  destruct (serve_snapshot_paged fs (Api.route_path ep req)
              (route_message ep req) p k js md D Hload Hsnap Hp Hk)
    as [meta Hserve].
  eexists meta, _, ((Z.of_nat (length D) + k - 1) / k), _, _.
  split; [rewrite route_serve; exact Hserve|].
  split; [apply get_per_page_clamped|].
  split; [intros i; apply window_lookup; subst p k; nia|].
  split; [reflexivity|]. split; [reflexivity|].
  split; [apply ceiling_bounds; done|].
  split; [reflexivity|]. split; [apply Z.ltb_lt|].
  split; [reflexivity|].
  rewrite Z.gtb_ltb, Z.ltb_lt. lia.
Qed.


(** C3: for [per_page] [k >= 1] the pages of [paginate_data] partition
    the list: every call reports the same page count, pages 1 to
    [total_pages] in order concatenate to [D], every page before the
    last holds [k] records, and the last holds between 1 and [k] when
    [D] is not empty. *)
Theorem pagination_partition {A} (D : list A) (k : Z) :
  1 <= k ->
  (forall p, exists s,
     Api.paginate_data D p k = Ok (s, Z.of_nat (length D), page_count D k)) /\
  concat (map (fun p => page_records D p k) (seqZ 1 (page_count D k))) = D /\
  (forall p, 1 <= p < page_count D k ->
             Z.of_nat (length (page_records D p k)) = k) /\
  (D <> [] ->
   1 <= Z.of_nat (length (page_records D (page_count D k) k)) <= k).
Proof.
  intros Hk.
  pose proof (ceiling_bounds (Z.of_nat (length D)) k Hk) as Hceil.
  rewrite <- (page_count_ceiling D k Hk) in Hceil. simpl in Hceil.
  set (tp := page_count D k) in *.
  assert (0 <= tp) as Htp by nia.
  split; [intros p; apply paginate_data_returns; lia|].
  split.
  - rewrite <- (Z2Nat.id tp) by done. rewrite pages_prefix by done.
    apply take_ge. nia.
  - split.
    + intros p Hp. rewrite page_records_window by lia.
      rewrite window_length by nia. nia.
    + intros HD. assert (1 <= Z.of_nat (length D)) by (destruct D; [done|simpl; lia]).
      assert (1 <= tp) by nia.
      rewrite page_records_window by lia.
      rewrite window_length by nia. nia.
Qed.


(** C10: a page past the last is no error.  For data list [D],
    [per_page] [k >= 1] and [p] above the ceiling [tp] of [|D| / k],
    each route answers 200 with [success] true, an empty [data] list,
    [total_records] still [|D|] and [has_next] false. *)
Theorem page_out_of_range ep fs req js md D (tp : Z) :
  Api.load_json_file fs (Api.route_path ep req) = Some js ->
  snapshot_of js md D ->
  1 <= Api.get_per_page req ->
  Api.get_per_page req * (tp - 1) < Z.of_nat (length D)
    <= Api.get_per_page req * tp ->
  Api.get_page req > tp ->
  exists meta pagination,
    Api.route ep fs req =
      {| Api.status := 200;
         Api.body := JObj [ ("success", JBool true); ("metadata", meta);
                            ("pagination", JObj pagination);
                            ("data", JList []) ] |} /\
    Py.dict_get pagination "total_records" = Some (JNum (Z.of_nat (length D))) /\
    Py.dict_get pagination "has_next" = Some (JBool false).
Proof.
  intros Hload Hsnap Hk Hceil Hp.
  set (k := Api.get_per_page req) in *. set (p := Api.get_page req) in *.
  pose proof (ceiling_bounds (Z.of_nat (length D)) k Hk) as Hcode.
  simpl in Hcode.
  assert ((Z.of_nat (length D) + k - 1) / k = tp) as Htp by nia.
  assert (1 <= p) as Hp1 by nia.
  destruct (serve_snapshot_paged fs (Api.route_path ep req)
              (route_message ep req) p k js md D Hload Hsnap Hp1 Hk)
    as [meta Hserve].
  rewrite Htp in Hserve.
  assert (window D ((p - 1) * k) k = []) as Hempty.
  { unfold window. rewrite drop_ge by nia. apply take_nil. }
  rewrite Hempty in Hserve.
  assert ((p <? tp) = false) as Hnext by (apply Z.ltb_ge; lia).
  rewrite Hnext in Hserve.
  eexists meta, _. split; [rewrite route_serve; exact Hserve|].
  split; reflexivity.
Qed.

(** ** Strings *)

Section Strings.
Implicit Types (s t : string).

Lemma append_cons c s t : String c s +:+ t = String c (s +:+ t).
Proof. reflexivity. Qed.

Lemma append_nil t : "" +:+ t = t.
Proof. reflexivity. Qed.

Lemma prefix_spec s t :
  String.prefix s t = true <-> exists post, t = s +:+ post.
Proof.
  revert t. induction s as [|c s IH]; intros t.
  - split; [intros _; by exists t | by destruct t].
  - destruct t as [|c' t']; simpl.
    + split; [done | intros [post H]; discriminate].
    + destruct (Ascii.ascii_dec c c') as [->|Hne].
      * rewrite IH. split; intros [post H]; exists post;
          rewrite append_cons in *; congruence.
      * split; [done | intros [post H]; rewrite append_cons in H; congruence].
Qed.

Lemma contains_spec s t :
  Py.contains s t = true <-> exists pre post, t = pre +:+ s +:+ post.
Proof.
  induction t as [|c t IH]; cbn [Py.contains].
  - rewrite orb_false_r, prefix_spec. split.
    + intros [post H]. by exists "", post.
    + intros (pre & post & H). destruct pre; [by exists post | discriminate].
  - rewrite orb_true_iff, prefix_spec, IH. split.
    + intros [[post H] | (pre & post & H)].
      * by exists "", post.
      * exists (String c pre), post. rewrite append_cons. congruence.
    + intros (pre & post & H). destruct pre as [|c' pre].
      * left. by exists post.
      * right. exists pre, post. rewrite append_cons in H. congruence.
Qed.

Lemma lower_app s t : Py.lower (s +:+ t) = Py.lower s +:+ Py.lower t.
Proof.
  induction s as [|c s IH]; [done|].
  rewrite append_cons. simpl. by rewrite IH.
Qed.

Lemma lower_split t a b :
  Py.lower t = a +:+ b ->
  exists a' b', t = a' +:+ b' /\ Py.lower a' = a /\ Py.lower b' = b.
Proof.
  revert t. induction a as [|c a IH]; intros t H.
  - by exists "", t.
  - destruct t as [|c' t']; [discriminate|].
    rewrite append_cons in H. simpl in H.
    injection H as Hc Ht. destruct (IH _ Ht) as (a' & b' & -> & Ha & Hb).
    exists (String c' a'), b'. simpl. by rewrite Hc, Ha.
Qed.

(** [needle in hay.lower()] is an occurrence up to case. *)
Lemma contains_lower s t :
  Py.contains s (Py.lower t) = true <-> occurs_ci s t.
Proof.
  rewrite contains_spec. unfold occurs_ci. split.
  - intros (pre & post & H).
    destruct (lower_split _ _ _ H) as (pre' & rest & -> & _ & Hrest).
    destruct (lower_split _ _ _ Hrest) as (mid & post' & -> & Hmid & _).
    by exists pre', mid, post'.
  - intros (pre & mid & post & -> & <-).
    exists (Py.lower pre), (Py.lower post). by rewrite !lower_app.
Qed.

End Strings.

(** ** Cells *)

Section Cells.
Variable market : string.
Let k := Monitor.AnnouncementsMonitor market.

Lemma link_type_spec href :
  (occurs_ci ".pdf" href -> Monitor.link_type href = "pdf") /\
  (~ occurs_ci ".pdf" href -> occurs_ci "xbrl" href ->
     Monitor.link_type href = "xbrl") /\
  (~ occurs_ci ".pdf" href -> ~ occurs_ci "xbrl" href ->
     Monitor.link_type href = "link").
Proof.
  unfold Monitor.link_type. rewrite <- !contains_lower.
  destruct (Py.contains ".pdf" (Py.lower href));
    destruct (Py.contains "xbrl" (Py.lower href)); naive_solver.
Qed.

Lemma extract_cell_link c href :
  first_link c href ->
  Monitor.extract_cell k c =
    JObj [ ("text", JStr (Py.strip (Monitor.cell_text c)));
           ("link", JStr href);
           ("type", JStr (Monitor.link_type href)) ].
Proof.
  intros [Hhead Hne]. unfold Monitor.extract_cell.
  destruct (Monitor.cell_anchors c) as [|a rest]; [discriminate|].
  simpl in Hhead. injection Hhead as ->. by destruct href.
Qed.

Lemma extract_cell_plain c :
  (forall href, ~ first_link c href) ->
  Monitor.extract_cell k c = JStr (Py.strip (Monitor.cell_text c)).
Proof.
  intros Hno. unfold Monitor.extract_cell.
  destruct (Monitor.cell_anchors c) as [|[[|ch h]|] rest] eqn:E; try done.
  exfalso. apply (Hno (String ch h)). unfold first_link. by rewrite E.
Qed.

Lemma first_link_dec c :
  (exists href, first_link c href) \/ (forall href, ~ first_link c href).
Proof.
  unfold first_link.
  destruct (Monitor.cell_anchors c) as [|[[|ch h]|] rest]; simpl.
  - right. intros href [H _]. discriminate.
  - right. intros href [H Hne]. by injection H as <-.
  - left. by exists (String ch h).
  - right. intros href [H _]. discriminate.
Qed.

(** The values [_extract_table_data] returns are values of
    [extract_cell]. *)
Lemma extract_table_data_cells kd pv row v :
  In row (Monitor.extract_table_data kd pv) -> In v row ->
  exists c, v = Monitor.extract_cell kd c.
Proof.
  unfold Monitor.extract_table_data. destruct (Monitor.pv_rows pv); [|done].
  rewrite filter_In, in_map_iff. intros [(cells & <- & _) _].
  rewrite in_map_iff. intros (c & <- & _). by exists c.
Qed.

End Cells.

(** ** Dicts and rows *)

Section Dicts.
Implicit Types (d kvs : list (string * json)) (k h : string) (v : json).

Lemma dict_get_set d k v k' :
  Py.dict_get (Py.dict_set d k v) k'
  = if String.eqb k k' then Some v else Py.dict_get d k'.
Proof.
  induction d as [|[k0 v0] d IH]; simpl.
  - done.
  - destruct (String.eqb_spec k0 k) as [->|Hne]; simpl.
    + by destruct (String.eqb k k').
    + rewrite IH. destruct (String.eqb_spec k0 k') as [->|Hne'];
        [|done]. by destruct (String.eqb_spec k k') as [->|].
Qed.

Lemma dict_get_app d d' k :
  Py.dict_get (d ++ d') k
  = match Py.dict_get d k with
    | Some v => Some v
    | None => Py.dict_get d' k
    end.
Proof.
  induction d as [|[k0 v0] d IH]; simpl; [done|].
  by destruct (String.eqb k0 k).
Qed.

Lemma dict_get_None d k :
  Py.dict_get d k = None <-> ~ In k (Py.dict_keys d).
Proof.
  induction d as [|[k0 v0] d IH]; simpl; [naive_solver|].
  destruct (String.eqb_spec k0 k) as [->|Hne]; naive_solver.
Qed.

Lemma dict_set_fresh d k v :
  ~ In k (Py.dict_keys d) -> Py.dict_set d k v = d ++ [(k, v)].
Proof.
  induction d as [|[k0 v0] d IH]; simpl; [done|]. intros Hnot.
  destruct (String.eqb_spec k0 k) as [->|Hne]; [naive_solver|].
  rewrite IH; naive_solver.
Qed.

Lemma dict_set_keys d k v k' :
  In k' (Py.dict_keys (Py.dict_set d k v)) <-> k' = k \/ In k' (Py.dict_keys d).
Proof.
  induction d as [|[k0 v0] d IH]; simpl; [naive_solver|].
  destruct (String.eqb_spec k0 k) as [->|Hne]; simpl; naive_solver.
Qed.

Lemma dict_set_length d k v :
  (length (Py.dict_set d k v) <= S (length d))%nat.
Proof.
  induction d as [|[k0 v0] d IH]; simpl; [lia|].
  destruct (String.eqb k0 k); simpl; lia.
Qed.

(** Reading a key after a run of assignments gives the last value
    assigned under it. *)
Lemma dict_of_pairs_get acc kvs k :
  Py.dict_get (dict_of_pairs acc kvs) k
  = match Py.dict_get (rev kvs) k with
    | Some v => Some v
    | None => Py.dict_get acc k
    end.
Proof.
  revert acc. induction kvs as [|[k0 v0] kvs IH]; intros acc; simpl; [done|].
  unfold dict_of_pairs in *. simpl. rewrite IH, dict_get_app, dict_get_set. simpl.
  destruct (Py.dict_get (rev kvs) k); [done|].
  by destruct (String.eqb k0 k).
Qed.

Lemma dict_of_pairs_keys acc kvs k :
  In k (Py.dict_keys (dict_of_pairs acc kvs))
  <-> In k (Py.dict_keys acc) \/ In k (map fst kvs).
Proof.
  revert acc. induction kvs as [|[k0 v0] kvs IH]; intros acc; simpl;
    [naive_solver|].
  unfold dict_of_pairs in *. simpl. rewrite IH, dict_set_keys. naive_solver.
Qed.

Lemma dict_of_pairs_length acc kvs :
  (length (dict_of_pairs acc kvs) <= length acc + length kvs)%nat.
Proof.
  revert acc. induction kvs as [|[k0 v0] kvs IH]; intros acc; simpl; [lia|].
  unfold dict_of_pairs in *. simpl.
  pose proof (IH (Py.dict_set acc k0 v0)).
  pose proof (dict_set_length acc k0 v0). lia.
Qed.

(** Distinct fresh keys are appended in order. *)
Lemma dict_of_pairs_fresh acc kvs :
  NoDup (map fst kvs) ->
  (forall k, In k (map fst kvs) -> ~ In k (Py.dict_keys acc)) ->
  dict_of_pairs acc kvs = acc ++ kvs.
Proof.
  revert acc. induction kvs as [|[k0 v0] kvs IH]; intros acc Hnd Hfresh; simpl.
  - by rewrite app_nil_r.
  - unfold dict_of_pairs in *. simpl. simpl in Hnd.
    apply NoDup_cons in Hnd as [Hk0 Hnd].
    rewrite dict_set_fresh by (apply Hfresh; simpl; auto).
    rewrite IH; [by rewrite <- app_assoc | done |].
    intros k Hk. unfold Py.dict_keys. rewrite map_app, in_app_iff. simpl.
    intros [Hin | [<- | []]].
    + apply (Hfresh k); simpl; auto.
    + apply Hk0. by apply list_elem_of_In.
Qed.

End Dicts.

Section Rows.
Implicit Types (hs : list string) (row : list json).

Lemma combine_lookup {A B} (l1 : list A) (l2 : list B) (i : nat) a b :
  combine l1 l2 !! i = Some (a, b) <-> l1 !! i = Some a /\ l2 !! i = Some b.
Proof.
  revert l2 i. induction l1 as [|x l1 IH]; intros [|y l2] [|i]; simpl;
    try naive_solver.
Qed.

Lemma combine_fst {A B} (l1 : list A) (l2 : list B) :
  map fst (combine l1 l2) = take (Nat.min (length l1) (length l2)) l1.
Proof.
  revert l2. induction l1 as [|x l1 IH]; intros [|y l2]; simpl; [done..|].
  by rewrite IH.
Qed.

(** The first branch of the conversion assigns the pairs of headers
    and cells in order. *)
Lemma fold_headers hs row s acc :
  (s + length hs <= length row)%nat ->
  fold_left
    (fun row_dict '(i, header) =>
       Py.dict_set row_dict header
         (if (i <? length row)%nat then nth i row JNull else JStr ""))
    (combine (seq s (length hs)) hs) acc
  = dict_of_pairs acc (combine hs (drop s row)).
Proof.
  revert s acc. induction hs as [|h hs IH]; intros s acc Hlen; [done|].
  simpl in Hlen. destruct (lookup_lt_is_Some_2 row s ltac:(lia)) as [v Hv].
  rewrite (drop_S _ _ _ Hv). cbn [length seq combine fold_left dict_of_pairs].
  destruct (Nat.ltb_spec s (length row)) as [_|]; [|lia].
  rewrite (nth_lookup_Some _ _ _ _ Hv).
  rewrite IH by lia. done.
Qed.

(** So does the second, over the cells. *)
Lemma fold_cells hs row s acc :
  (s + length row <= length hs)%nat ->
  fold_left
    (fun row_dict '(i, value) =>
       let header :=
         if (i <? length hs)%nat then nth i hs ""
         else "Column_" +:+ Monitor.str_of_nat (i + 1) in
       Py.dict_set row_dict header value)
    (combine (seq s (length row)) row) acc
  = dict_of_pairs acc (combine (drop s hs) row).
Proof.
  revert s acc. induction row as [|v row IH]; intros s acc Hlen.
  - by destruct (drop s hs).
  - simpl in Hlen. destruct (lookup_lt_is_Some_2 hs s ltac:(lia)) as [h Hh].
    rewrite (drop_S _ _ _ Hh). cbn [length seq combine fold_left dict_of_pairs].
    destruct (Nat.ltb_spec s (length hs)) as [_|]; [|lia].
    rewrite (nth_lookup_Some _ _ _ _ Hh).
    rewrite IH by lia. done.
Qed.

Lemma structure_row_pairs hs row :
  Monitor.structure_row hs row = dict_of_pairs [] (combine hs row).
Proof.
  unfold Monitor.structure_row, Monitor.enumerate.
  destruct (Nat.leb_spec (length hs) (length row)).
  - by rewrite fold_headers by lia.
  - by rewrite fold_cells by lia.
Qed.

(** In a reversed run of assignments the first hit is the last
    assignment under the key. *)
Lemma dict_get_rev_last (kvs : list (string * json)) i h v :
  kvs !! i = Some (h, v) ->
  (forall j v', (i < j)%nat -> kvs !! j <> Some (h, v')) ->
  Py.dict_get (rev kvs) h = Some v.
Proof.
  revert i. induction kvs as [|[k0 v0] kvs IH]; intros i Hi Hlast; [done|].
  simpl. rewrite dict_get_app. destruct i as [|i]; simpl in Hi.
  - injection Hi as -> ->.
    assert (Py.dict_get (rev kvs) h = None) as ->.
    { apply dict_get_None. unfold Py.dict_keys.
      rewrite map_rev, <- in_rev, in_map_iff. intros ([k' v'] & Hk & Hin).
      simpl in Hk. subst k'. apply list_elem_of_In, list_elem_of_lookup in Hin.
      destruct Hin as [j Hj]. apply (Hlast (S j) v'); [lia | done]. }
    simpl. by rewrite String.eqb_refl.
  - rewrite (IH i Hi); [done|]. intros j v' Hj. apply (Hlast (S j) v'). lia.
Qed.

End Rows.

(** ** The scrape cycle *)

Section Cycle.
Implicit Types (m : Monitor.monitor) (w : Monitor.world)
  (st : Monitor.state) (max_pages : option Z).

(** The page loop does not depend on its fuel once the fuel covers
    the pages left before the safety limit. *)
Lemma scrape_loop_fuel k w max_pages fuel1 fuel2 page acc :
  (page <= Monitor.page_limit k)%nat ->
  (Monitor.page_limit k < page + fuel1)%nat ->
  (Monitor.page_limit k < page + fuel2)%nat ->
  Monitor.scrape_loop k w max_pages fuel1 page acc
  = Monitor.scrape_loop k w max_pages fuel2 page acc.
Proof.
  revert fuel2 page acc.
  induction fuel1 as [|fuel1 IH]; intros fuel2 page acc Hp H1 H2; [lia|].
  destruct fuel2 as [|fuel2]; [lia|]. simpl.
  destruct (Monitor.over_max_pages max_pages page); [done|].
  destruct (Monitor.pv_has_next (Monitor.w_page w page)) as [[|]|e];
    simpl; [|done..].
  destruct (Monitor.pv_click_next (Monitor.w_page w page)); simpl; [|done].
  destruct (Nat.ltb_spec (Monitor.page_limit k) (S page)); [done|].
  apply IH; lia.
Qed.

(** The loop always ends with an answer or an exception of the
    driver: with the fuel [scrape_all_pages] gives it, more fuel
    changes nothing. *)
Lemma scrape_loop_enough k w max_pages extra :
  Monitor.scrape_loop k w max_pages (S (Monitor.page_limit k) + extra) 1 []
  = Monitor.scrape_loop k w max_pages (S (Monitor.page_limit k)) 1 [].
Proof.
  apply scrape_loop_fuel; [destruct k; simpl; lia | lia..].
Qed.

Lemma init_driver_fs w st : Monitor.fs (fst (Monitor.init_driver w st)) = Monitor.fs st.
Proof. unfold Monitor.init_driver. by destruct (Monitor.w_init_driver w). Qed.

(** Scraping writes no file. *)
Lemma scrape_all_pages_fs m w max_pages st :
  Monitor.fs (fst (Monitor.scrape_all_pages m w max_pages st)) = Monitor.fs st.
Proof.
  unfold Monitor.scrape_all_pages.
  destruct (Monitor.driver st).
  - done.
  - pose proof (init_driver_fs w st) as Hfs.
    destruct (Monitor.init_driver w st) as [st1 [|]]; simpl in *; done.
Qed.

(** The shape of every result object. *)
Lemma scrape_all_pages_result m w max_pages st st' env :
  Monitor.scrape_all_pages m w max_pages st = (st', Some env) ->
  exists headers rows page,
    env = JObj
      [ ("metadata",
         JObj (Monitor.metadata (Monitor.mon_kind m) (Monitor.w_now w)
                 (length rows) page headers));
        ("data", JList (map JObj rows)) ].
Proof.
  unfold Monitor.scrape_all_pages.
  destruct (if Monitor.driver st then (st, true) else Monitor.init_driver w st)
    as [st1 [|]]; cbn [negb bind]; [|intros [=]].
  destruct (Monitor.w_open w) as [[]|]; cbn [negb bind]; [|intros [=]].
  destruct (Monitor.w_wait_for_table w) as [[|]|]; cbn [negb bind];
    [|intros [=]..].
  destruct (Monitor.scrape_loop _ _ _ _ _ _) as [[all_data page]|];
    cbn [negb bind]; [|intros [=]].
  intros [= _ <-]. eauto.
Qed.

Lemma metadata_keys k now records page headers :
  let md := Monitor.metadata k now records page headers in
  Py.dict_get md "scrape_timestamp" = Some (JStr now) /\
  Py.dict_get md "total_records" = Some (JNum (Z.of_nat records)) /\
  Py.dict_get md "total_pages" = Some (JNum (Z.of_nat page)) /\
  Py.dict_get md "source_url" = Some (JStr (Monitor.url k)) /\
  Py.dict_get md "headers" = Some (JList (map JStr headers)).
Proof. by destruct k. Qed.

Lemma run_cycle_raise m w st e :
  snd (Monitor.run_cycle m w (Raise e) st) = None /\
  Monitor.fs (fst (Monitor.run_cycle m w (Raise e) st)) = Monitor.fs st.
Proof. simpl. split; [done | apply init_driver_fs]. Qed.

Lemma run_single_scrape_none m w max_pages st :
  snd (Monitor.scrape_all_pages m w max_pages st) = None ->
  snd (Monitor.run_single_scrape m w max_pages st) = None /\
  Monitor.fs (fst (Monitor.run_single_scrape m w max_pages st)) = Monitor.fs st.
Proof.
  intros Hnone. unfold Monitor.run_single_scrape, Monitor.run_cycle.
  pose proof (scrape_all_pages_fs m w max_pages st) as Hfs.
  destruct (Monitor.scrape_all_pages m w max_pages st) as [st1 data].
  simpl in *. subst data. done.
Qed.

Lemma run_single_scrape_some m w max_pages st :
  (exists env, snd (Monitor.scrape_all_pages m w max_pages st) = Some env /\
               snd (Monitor.run_single_scrape m w max_pages st) = Some env) \/
  (snd (Monitor.scrape_all_pages m w max_pages st) = None).
Proof.
  destruct (Monitor.scrape_all_pages m w max_pages st) as [st1 [env|]] eqn:E;
    [left | by right].
  exists env. split; [done|].
  destruct (scrape_all_pages_result _ _ _ _ _ _ E) as (hs & rows & page & ->).
  unfold Monitor.run_single_scrape, Monitor.run_cycle. rewrite E. done.
Qed.

End Cycle.

(** ** Duplicate removal *)

Section Dedup.
Context {A : Type} (key : A -> string).
Implicit Types (l items earlier unique : list A) (seen : gset string).

Lemma existsb_key earlier x :
  existsb (fun y => String.eqb (key y) (key x)) earlier = true
  <-> In (key x) (map key earlier).
Proof.
  rewrite existsb_exists, in_map_iff.
  split; intros (y & H1 & H2); exists y.
  - by apply String.eqb_eq in H2.
  - split; [done|]. by apply String.eqb_eq.
Qed.

(** The loop keeps what [keep_first] keeps, as long as [seen] holds
    the keys of what came before. *)
Lemma unique_loop_spec items seen unique earlier :
  (forall s, elem_of s seen <-> In s (map key earlier)) ->
  Heatmap.unique_loop key items seen unique
  = unique ++ Heatmap.keep_first key earlier items.
Proof.
  revert seen unique earlier.
  induction items as [|x items IH]; intros seen unique earlier Hseen; simpl.
  - by rewrite app_nil_r.
  - destruct (existsb _ earlier) eqn:Hex.
    + apply existsb_key, Hseen in Hex.
      rewrite decide_True by done. simpl. apply IH.
      intros s. rewrite map_app, in_app_iff, <- Hseen. simpl.
      split; [auto | intros [H | [<- | []]]; done].
    + assert (~ elem_of (key x) seen) as Hnot.
      { rewrite Hseen, <- existsb_key, Hex. done. }
      rewrite decide_False by done.
      rewrite (IH _ _ (earlier ++ [x])).
      * by rewrite <- app_assoc.
      * intros s. rewrite elem_of_union, elem_of_singleton, Hseen.
        rewrite map_app, in_app_iff. simpl. naive_solver.
Qed.

Lemma remove_duplicates_spec l :
  Heatmap.remove_duplicates key l = Heatmap.keep_first key [] l.
Proof.
  unfold Heatmap.remove_duplicates.
  rewrite (unique_loop_spec _ _ _ []); [done|].
  intros s. simpl. split; [|done]. apply not_elem_of_empty.
Qed.

Lemma keep_first_sublist earlier l :
  sublist (Heatmap.keep_first key earlier l) l.
Proof.
  revert earlier. induction l as [|x l IH]; intros earlier; simpl; [done|].
  destruct (existsb _ earlier); simpl.
  - by apply sublist_cons.
  - by apply sublist_skip.
Qed.

Lemma keep_first_keys earlier l s :
  In s (map key (Heatmap.keep_first key earlier l))
  <-> In s (map key l) /\ ~ In s (map key earlier).
Proof.
  revert earlier. induction l as [|x l IH]; intros earlier; simpl;
    [naive_solver|].
  rewrite map_app, in_app_iff, IH, map_app, in_app_iff. simpl.
  destruct (existsb _ earlier) eqn:Hex; simpl.
  - apply existsb_key in Hex. naive_solver.
  - assert (~ In (key x) (map key earlier)) as Hnot.
    { rewrite <- existsb_key, Hex. done. }
    destruct (decide (s = key x)) as [->|Hne]; naive_solver.
Qed.

Lemma keep_first_NoDup earlier l :
  NoDup (map key (Heatmap.keep_first key earlier l)).
Proof.
  revert earlier. induction l as [|x l IH]; intros earlier; simpl;
    [constructor|].
  destruct (existsb _ earlier) eqn:Hex; simpl; [apply IH|].
  apply NoDup_cons. split; [|apply IH].
  rewrite list_elem_of_In, keep_first_keys, map_app, in_app_iff. simpl.
  naive_solver.
Qed.

(** An entry is kept exactly when no entry before it has its key. *)
Lemma keep_first_app earlier l1 l2 :
  Heatmap.keep_first key earlier (l1 ++ l2)
  = Heatmap.keep_first key earlier l1
    ++ Heatmap.keep_first key (earlier ++ l1) l2.
Proof.
  revert earlier. induction l1 as [|x l1 IH]; intros earlier; simpl.
  - by rewrite app_nil_r.
  - rewrite IH, <- !app_assoc. done.
Qed.

End Dedup.

(** ** Theorems on the monitors *)


(** C5: every result object of a scrape that succeeds has, in its
    [metadata], the keys [scrape_timestamp], [total_records],
    [total_pages], [source_url] and [headers], and [total_records] is
    the length of its [data] list. *)
Theorem envelope_record_count (m : Monitor.monitor) (w : Monitor.world)
    (max_pages : option Z) (st st' : Monitor.state) (env : json) :
  Monitor.scrape_all_pages m w max_pages st = (st', Some env) ->
  exists md data ts pages url headers,
    env = JObj [ ("metadata", JObj md); ("data", JList data) ] /\
    Py.dict_get md "scrape_timestamp" = Some (JStr ts) /\
    Py.dict_get md "total_records" = Some (JNum (Z.of_nat (length data))) /\
    Py.dict_get md "total_pages" = Some (JNum pages) /\
    Py.dict_get md "source_url" = Some (JStr url) /\
    Py.dict_get md "headers" = Some (JList headers).
Proof.
  intros Hscrape.
  destruct (scrape_all_pages_result _ _ _ _ _ _ Hscrape)
    as (headers & rows & page & ->).
  destruct (metadata_keys (Monitor.mon_kind m) (Monitor.w_now w) (length rows)
              page headers) as (Hts & Hrec & Hpages & Hurl & Hhdr).
  eexists _, _, _, _, _, _. split; [reflexivity|].
  rewrite length_map. by repeat split.
Qed.

(** C6, amended: every cell value the announcements extractor
    produces is a plain string or an object with exactly the keys
    [text], [link] and [type]; the object is produced exactly when the
    first [<a>] of the cell has a non-empty [href]; [link] is that
    [href] and [type] is [pdf] when it contains [.pdf] up to case,
    else [xbrl] when it contains [xbrl] up to case, else [link]. *)
Theorem cell_value_shape (market : string) (c : Monitor.cell) :
  let k := Monitor.AnnouncementsMonitor market in
  let v := Monitor.extract_cell k c in
  let text := Py.strip (Monitor.cell_text c) in
  (v = JStr text \/ link_object v) /\
  (link_object v <-> exists href, first_link c href) /\
  (forall href, first_link c href ->
     exists type,
       v = JObj [ ("text", JStr text); ("link", JStr href);
                  ("type", JStr type) ] /\
       (occurs_ci ".pdf" href -> type = "pdf") /\
       (~ occurs_ci ".pdf" href -> occurs_ci "xbrl" href -> type = "xbrl") /\
       (~ occurs_ci ".pdf" href -> ~ occurs_ci "xbrl" href -> type = "link")) /\
  (forall pv row u,
     In row (Monitor.extract_table_data k pv) -> In u row ->
     (exists s, u = JStr s) \/ link_object u).
Proof.
  intros k v text. subst k v text.
  assert (forall c', (exists href, first_link c' href /\
                        link_object (Monitor.extract_cell
                                      (Monitor.AnnouncementsMonitor market) c')) \/
                     ((forall href, ~ first_link c' href) /\
                      Monitor.extract_cell (Monitor.AnnouncementsMonitor market) c'
                        = JStr (Py.strip (Monitor.cell_text c')))) as Hcases.
  { intros c'. destruct (first_link_dec c') as [[href Hl] | Hno].
    - left. exists href. split; [done|].
      rewrite (extract_cell_link market c' href Hl). by eexists _, _, _.
    - right. split; [done|]. by apply extract_cell_plain. }
  split; [|split; [|split]].
  - destruct (Hcases c) as [(href & _ & Hobj) | [_ Hplain]]; [by right | by left].
  - split.
    + intros Hobj. destruct (Hcases c) as [(href & Hl & _) | [_ Hplain]];
        [by exists href|].
      rewrite Hplain in Hobj. by destruct Hobj as (? & ? & ? & ?).
    + intros [href Hl].
      rewrite (extract_cell_link market c href Hl). by eexists _, _, _.
  - intros href Hl. exists (Monitor.link_type href). split.
    + by apply extract_cell_link.
    + apply link_type_spec.
  - intros pv row u Hrow Hu.
    destruct (extract_table_data_cells _ pv row u Hrow Hu) as [c' ->].
    destruct (Hcases c') as [(href & _ & Hobj) | [_ Hplain]]; [by right|].
    left. by eexists.
Qed.

(** C7, amended: the record of a row holds one key for each distinct
    name among the first [n] headers, [n] being the smaller of the
    number of headers and the number of cells; a name reads as the
    cell at the last index under that name, so with pairwise distinct
    names [headers[i]] reads as cell [i] and the record is the list of
    pairs in order; cells past the last header are dropped and no
    entry is added for a header past the last cell. *)
Theorem row_structuring (hs : list string) (row : list json) :
  let record := Monitor.structure_row hs row in
  let n := Nat.min (length hs) (length row) in
  (forall i h, (i < n)%nat -> hs !! i = Some h ->
     (forall j, (i < j < n)%nat -> hs !! j <> Some h) ->
     Py.dict_get record h = row !! i) /\
  (NoDup (take n hs) ->
     record = combine hs row /\
     (forall i h, (i < n)%nat -> hs !! i = Some h ->
                  Py.dict_get record h = row !! i)) /\
  (forall h, In h (Py.dict_keys record) <-> In h (take n hs)) /\
  (length record <= n)%nat.
Proof.
  intros record n. subst record. rewrite structure_row_pairs.
  assert (forall i h, (i < n)%nat -> hs !! i = Some h ->
            (forall j, (i < j < n)%nat -> hs !! j <> Some h) ->
            Py.dict_get (dict_of_pairs [] (combine hs row)) h = row !! i)
    as Hlast.
  { intros i h Hi Hh Hafter.
    destruct (lookup_lt_is_Some_2 row i ltac:(lia)) as [v Hv].
    rewrite dict_of_pairs_get, Hv.
    rewrite (dict_get_rev_last _ i h v); [done | by apply combine_lookup |].
    intros j v' Hj Hjl. apply combine_lookup in Hjl as [Hjh Hjv].
    apply (Hafter j); [|done].
    apply lookup_lt_Some in Hjh. apply lookup_lt_Some in Hjv. lia. }
  split; [exact Hlast|]. split; [|split].
  - intros Hnd. split.
    + rewrite dict_of_pairs_fresh; [done | by rewrite combine_fst | by intros k _ []].
    + intros i h Hi Hh. apply (Hlast i h Hi Hh). intros j Hj Hjh.
      assert (take n hs !! i = Some h) as H1 by (by rewrite lookup_take_lt).
      assert (take n hs !! j = Some h) as H2 by (by rewrite lookup_take_lt by lia).
      pose proof (NoDup_lookup _ _ _ _ Hnd H1 H2). lia.
  - intros h. rewrite dict_of_pairs_keys, combine_fst. simpl. naive_solver.
  - pose proof (dict_of_pairs_length [] (combine hs row)) as Hlen.
    rewrite length_combine in Hlen. simpl in Hlen. lia.
Qed.

(** ** Theorems on the heat map *)

(** C8: the duplicate removal keeps first occurrences.  The [stocks]
    of the result are the collected entries whose symbol no earlier
    entry has: their symbols are pairwise distinct, they come in the
    order of the input, no symbol is lost, and [total_stocks] is their
    number; the scraper's removal by symbol and both removals of index
    cards by name follow the same rule. *)
Theorem dedup_first_occurrence (index category now : string)
    (collected : list Heatmap.stock) (hd : Heatmap.heatmap_data)
    (cards : list Heatmap.index_card) :
  let h := Heatmap.get_heatmap index category now collected in
  Heatmap.stocks h = Heatmap.keep_first Heatmap.symbol [] collected /\
  NoDup (map Heatmap.symbol (Heatmap.stocks h)) /\
  sublist (Heatmap.stocks h) collected /\
  (forall s, In s (map Heatmap.symbol (Heatmap.stocks h))
             <-> In s (map Heatmap.symbol collected)) /\
  Heatmap.total_stocks h = Z.of_nat (length (Heatmap.stocks h)) /\
  Heatmap.hd_stocks (Heatmap.scrape_heatmap hd)
    = Heatmap.keep_first Heatmap.symbol [] (Heatmap.hd_stocks hd) /\
  Heatmap.get_indices cards = Heatmap.keep_first Heatmap.name [] cards /\
  Heatmap.get_index_cards cards = Heatmap.keep_first Heatmap.name [] cards /\
  NoDup (map Heatmap.name (Heatmap.get_indices cards)) /\
  sublist (Heatmap.get_indices cards) cards.
Proof.
  intros h. subst h. unfold Heatmap.get_heatmap, Heatmap.scrape_heatmap,
    Heatmap.get_indices, Heatmap.get_index_cards. simpl.
  rewrite !remove_duplicates_spec.
  split; [done|]. split; [apply keep_first_NoDup|].
  split; [apply keep_first_sublist|].
  split; [intros s; rewrite keep_first_keys; simpl; naive_solver|].
  split; [done|]. split; [done|]. split; [done|]. split; [done|].
  split; [apply keep_first_NoDup | apply keep_first_sublist].
Qed.

(** ** The theorems at the worked inputs *)

Lemma sample_snapshot_shape : snapshot_of sample_snapshot sample_metadata sample_rows.
Proof. exists [ ("metadata", JObj sample_metadata); ("data", JList sample_rows) ]. by repeat split. Defined.

Lemma sample_disk_load req :
  Api.load_json_file sample_disk (Api.route_path Api.Crd req) = Some sample_snapshot.
Proof. reflexivity. Defined.

Lemma paged_response_witness :
  1 <= Api.get_page (sample_request 2 2) /\
  1 <= Api.get_per_page (sample_request 2 2) /\
  Api.status (Api.route Api.Crd sample_disk (sample_request 2 2)) = 200.
Proof.
  assert (1 <= Api.get_page (sample_request 2 2)) as Hp by (vm_compute; discriminate).
  assert (1 <= Api.get_per_page (sample_request 2 2)) as Hk by (vm_compute; discriminate).
  split; [exact Hp|]. split; [exact Hk|].
  destruct (paged_response Api.Crd sample_disk (sample_request 2 2)
              sample_snapshot sample_metadata sample_rows
              (sample_disk_load _) sample_snapshot_shape Hp Hk)
    as (meta & pagination & tp & hn & hp & -> & _).
  reflexivity.
Defined.


Lemma pagination_partition_witness :
  1 <= 2 /\
  concat (map (fun p => page_records [10; 20; 30; 40; 50] p 2)
            (seqZ 1 (page_count [10; 20; 30; 40; 50] 2)))
  = [10; 20; 30; 40; 50].
Proof.
  assert (1 <= 2) as Hk by lia.
  split; [exact Hk|].
  exact (proj1 (proj2 (pagination_partition [10; 20; 30; 40; 50] 2 Hk))).
Defined.


Lemma page_out_of_range_witness :
  1 <= Api.get_per_page (sample_request 5 2) /\
  Api.get_page (sample_request 5 2) > 2 /\
  exists meta pagination,
    Api.route Api.Crd sample_disk (sample_request 5 2) =
      {| Api.status := 200;
         Api.body := JObj [ ("success", JBool true); ("metadata", meta);
                            ("pagination", JObj pagination);
                            ("data", JList []) ] |} /\
    Py.dict_get pagination "total_records" = Some (JNum 3) /\
    Py.dict_get pagination "has_next" = Some (JBool false).
Proof.
  assert (1 <= Api.get_per_page (sample_request 5 2)) as Hk
    by (vm_compute; discriminate).
  assert (Api.get_page (sample_request 5 2) > 2) as Hp by reflexivity.
  assert (Api.get_per_page (sample_request 5 2) * (2 - 1)
          < Z.of_nat (length sample_rows)
          <= Api.get_per_page (sample_request 5 2) * 2) as Hceil
    by (vm_compute; split; [reflexivity | discriminate]).
  split; [exact Hk|]. split; [exact Hp|].
  exact (page_out_of_range Api.Crd sample_disk (sample_request 5 2)
           sample_snapshot sample_metadata sample_rows 2
           (sample_disk_load _) sample_snapshot_shape Hk Hceil Hp).
Defined.


Lemma envelope_record_count_witness :
  exists st' env,
    Monitor.scrape_all_pages sample_monitor world_up None sample_state
      = (st', Some env) /\
    exists md data ts pages url headers,
      env = JObj [ ("metadata", JObj md); ("data", JList data) ] /\
      Py.dict_get md "scrape_timestamp" = Some (JStr ts) /\
      Py.dict_get md "total_records" = Some (JNum (Z.of_nat (length data))) /\
      Py.dict_get md "total_pages" = Some (JNum pages) /\
      Py.dict_get md "source_url" = Some (JStr url) /\
      Py.dict_get md "headers" = Some (JList headers).
Proof.
  eexists _, _.
  assert (forall r, r = Monitor.scrape_all_pages sample_monitor world_up None
                          sample_state ->
                    Monitor.scrape_all_pages sample_monitor world_up None
                      sample_state = (fst r, Some (default JNull (snd r)))) as Hrun.
  { intros r ->. vm_compute. reflexivity. }
  split; [exact (Hrun _ eq_refl)|].
  exact (envelope_record_count sample_monitor world_up None sample_state _ _
           (Hrun _ eq_refl)).
Defined.

Lemma cell_value_shape_witness :
  first_link pdf_cell "https://example.org/NOTICE.PDF" /\
  occurs_ci ".pdf" "https://example.org/NOTICE.PDF" /\
  Monitor.extract_cell (Monitor.AnnouncementsMonitor "Equity") pdf_cell
  = JObj [ ("text", JStr "Attachment");
           ("link", JStr "https://example.org/NOTICE.PDF");
           ("type", JStr "pdf") ].
Proof.
  assert (first_link pdf_cell "https://example.org/NOTICE.PDF") as Hl
    by (split; [reflexivity | discriminate]).
  assert (occurs_ci ".pdf" "https://example.org/NOTICE.PDF") as Hpdf
    by (exists "https://example.org/NOTICE", ".PDF", ""; split; reflexivity).
  split; [exact Hl|]. split; [exact Hpdf|].
  destruct (proj1 (proj2 (proj2 (cell_value_shape "Equity" pdf_cell))) _ Hl)
    as (type & -> & Htype & _).
  rewrite (Htype Hpdf). reflexivity.
Defined.

(** C6 as first stated fails: a cell can hold a link with a non-empty
    [href] and still come out as a plain string, when an [<a>] without
    [href] stands before it. *)
Lemma cell_value_counterexample :
  has_hyperlink two_anchor_cell /\
  Monitor.extract_cell (Monitor.AnnouncementsMonitor "Equity") two_anchor_cell
    = JStr "Attachment" /\
  ~ (has_hyperlink two_anchor_cell ->
     link_object (Monitor.extract_cell (Monitor.AnnouncementsMonitor "Equity")
                    two_anchor_cell)).
Proof.
  assert (has_hyperlink two_anchor_cell) as Hhas.
  { exists "https://example.org/notice.pdf". split; [|discriminate].
    right. left. reflexivity. }
  split; [exact Hhas|]. split; [reflexivity|].
  intros Hclaim. destruct (Hclaim Hhas) as (text & link & type & Heq).
  discriminate Heq.
Qed.

Lemma row_structuring_witness :
  NoDup (take (Nat.min 3 2) [ "SYMBOL"; "SUBJECT"; "DETAILS" ]) /\
  Monitor.structure_row [ "SYMBOL"; "SUBJECT"; "DETAILS" ]
    [ JStr "ABC"; JStr "Board meeting" ]
  = [ ("SYMBOL", JStr "ABC"); ("SUBJECT", JStr "Board meeting") ].
Proof.
  assert (NoDup (take (Nat.min 3 2) [ "SYMBOL"; "SUBJECT"; "DETAILS" ])) as Hnd.
  { apply (bool_decide_unpack _). vm_compute. exact I. }
  split; [exact Hnd|].
  exact (proj1 (proj1 (proj2 (row_structuring [ "SYMBOL"; "SUBJECT"; "DETAILS" ]
                                [ JStr "ABC"; JStr "Board meeting" ])) Hnd)).
Defined.

(** C7 as first stated fails: under a repeated header name the record
    reads the last cell, not cell [i]. *)
Lemma row_structuring_counterexample :
  let hs := [ "DATE"; "DATE" ] in
  let row := [ JStr "01-Jan-2025"; JStr "02-Jan-2025" ] in
  (length hs <= length row)%nat /\
  Monitor.structure_row hs row = [ ("DATE", JStr "02-Jan-2025") ] /\
  ~ (forall i h, hs !! i = Some h ->
                 Py.dict_get (Monitor.structure_row hs row) h = row !! i).
Proof.
  split; [simpl; lia|]. split; [reflexivity|].
  intros Hclaim. specialize (Hclaim 0%nat "DATE" eq_refl). discriminate Hclaim.
Qed.

(** ** More on the paged routes *)

Section RouteEdges.
Implicit Types (fs : disk) (req : Api.request) (ep : Api.endpoint).

(** The answer to a well-formed snapshot once [paginate_data]
    returns. *)
Lemma serve_snapshot_ok fs path msg p k js md D s total tp :
  Api.load_json_file fs path = Some js ->
  snapshot_of js md D ->
  Api.paginate_data D p k = Ok (s, total, tp) ->
  exists meta,
    Api.serve_snapshot fs path msg p k =
    {| Api.status := 200;
       Api.body := JObj
         [ ("success", JBool true);
           ("metadata", meta);
           ("pagination", JObj
             [ ("page", JNum p);
               ("per_page", JNum k);
               ("total_records", JNum total);
               ("total_pages", JNum tp);
               ("has_next", JBool (p <? tp));
               ("has_prev", JBool (p >? 1)) ]);
           ("data", JList s) ] |}.
Proof.
  intros Hload Hsnap Hpag. unfold Api.serve_snapshot. rewrite Hload.
  rewrite (snapshot_truthy _ _ _ Hsnap). simpl negb. cbv iota.
  destruct Hsnap as (kvs & -> & Hdata & Hmeta).
  cbn [bind]. rewrite Hmeta.
  unfold Py.dict_get_default. rewrite Hdata.
  unfold Api.paginate_json. rewrite Hpag.
  cbn [bind Api.create_response Api.jsonify]. eauto.
Qed.

Lemma load_json_file_Some fs path js :
  Api.load_json_file fs path = Some js <-> fs !! path = Some (FileJson js).
Proof.
  unfold Api.load_json_file.
  destruct (fs !! path) as [[j|]|]; naive_solver.
Qed.

Lemma slice_negative {A} (D : list A) a b :
  a < 0 -> b < 0 ->
  Py.slice D a b =
    window D (Z.max (a + Z.of_nat (length D)) 0)
      (Z.max (b + Z.of_nat (length D)) 0 - Z.max (a + Z.of_nat (length D)) 0).
Proof.
  intros Ha Hb. unfold Py.slice, Py.slice_index, window. cbv zeta.
  destruct (Z.ltb_spec a 0); [|lia]. destruct (Z.ltb_spec b 0); [|lia]. done.
Qed.

Lemma slice_to_zero {A} (D : list A) a : Py.slice D a 0 = [].
Proof.
  unfold Py.slice, Py.slice_index. cbv zeta. rewrite Z.ltb_irrefl.
  rewrite (Z.min_l 0) by lia.
  destruct (Z.ltb_spec a 0);
    match goal with |- take ?m _ = _ => replace m with 0%nat by lia end; done.
Qed.

Lemma slice_from_zero {A} (D : list A) b :
  b < 0 -> Py.slice D 0 b = take (Z.to_nat (Z.of_nat (length D) + b)) D.
Proof.
  intros Hb. unfold Py.slice, Py.slice_index. cbv zeta. rewrite Z.ltb_irrefl.
  destruct (Z.ltb_spec b 0); [|lia].
  rewrite (Z.min_l 0) by lia. simpl drop. f_equal. lia.
Qed.

End RouteEdges.

(** X1: a snapshot file that does not parse, or that holds a falsy
    document (an empty object or list, [null], [0], [false] or the
    empty string), is answered like a missing one: 404 with the
    route's message, whatever the page and [per_page]. *)
Theorem unusable_snapshot_404 (ep : Api.endpoint) (fs : disk) (req : Api.request) :
  (fs !! Api.route_path ep req = Some FileGarbage \/
   exists js, fs !! Api.route_path ep req = Some (FileJson js) /\
              Py.truthy js = false) ->
  Api.route ep fs req =
    {| Api.status := 404;
       Api.body := JObj [ ("success", JBool false);
                          ("error", JStr (route_message ep req)) ] |}.
Proof.
  intros Hfile. rewrite route_serve. unfold Api.serve_snapshot, Api.load_json_file.
  destruct Hfile as [-> | (js & -> & Hfalsy)]; [done|]. by rewrite Hfalsy.
Qed.

(** X2: a snapshot file holding a truthy document that is not an
    object (a non-empty list or string, a number, [true]) makes every
    paged route answer 500. *)
Theorem non_object_snapshot_500 (ep : Api.endpoint) (fs : disk)
    (req : Api.request) (js : json) :
  fs !! Api.route_path ep req = Some (FileJson js) ->
  Py.truthy js = true ->
  (forall kvs, js <> JObj kvs) ->
  Api.route ep fs req = Api.internal_error /\
  Api.status (Api.route ep fs req) = 500.
Proof.
  intros Hfile Htruthy Hnot. rewrite route_serve.
  unfold Api.serve_snapshot, Api.load_json_file. rewrite Hfile, Htruthy.
  destruct js; try done. by destruct (Hnot kvs).
Qed.


(** X4: a page number below 1 is no error.  For [per_page] [k >= 1],
    page 0 is answered with an empty page, and a negative page [p]
    with the records [D[n+(p-1)k : n+pk]] counted from the end of the
    list (indexes below 0 read as 0); [has_prev] is false. *)
Theorem page_below_one (ep : Api.endpoint) (fs : disk) (req : Api.request)
    (js : json) (md : list (string * json)) (D : list json) :
  Api.load_json_file fs (Api.route_path ep req) = Some js ->
  snapshot_of js md D ->
  1 <= Api.get_per_page req ->
  Api.get_page req <= 0 ->
  let p := Api.get_page req in
  let k := Api.get_per_page req in
  let n := Z.of_nat (length D) in
  let first := Z.max (n + (p - 1) * k) 0 in
  let last := Z.max (n + p * k) 0 in
  exists meta pagination records,
    Api.route ep fs req =
      {| Api.status := 200;
         Api.body := JObj [ ("success", JBool true); ("metadata", meta);
                            ("pagination", JObj pagination);
                            ("data", JList records) ] |} /\
    (p = 0 -> records = []) /\
    (p < 0 -> records = window D first (last - first)) /\
    Py.dict_get pagination "has_prev" = Some (JBool false).
Proof.
  intros Hload Hsnap Hk Hp p k n first last.
  destruct (paginate_data_returns D p k ltac:(lia)) as [s Hs].
  destruct (serve_snapshot_ok fs (Api.route_path ep req) (route_message ep req)
              p k js md D s _ _ Hload Hsnap Hs) as [meta Hserve].
  assert ((p >? 1) = false) as Hprev by (rewrite Z.gtb_ltb; apply Z.ltb_ge; lia).
  rewrite Hprev in Hserve.
  eexists meta, _, s. split; [rewrite route_serve; exact Hserve|].
  split; [|split; [|reflexivity]].
  - intros Hzero. unfold Api.paginate_data in Hs. destruct D as [|x D'].
    + by injection Hs as <-.
    + destruct (Z.eqb_spec k 0); [lia|]. injection Hs as <-.
      rewrite Hzero. replace ((0 - 1) * k + k) with 0 by lia.
      apply slice_to_zero.
  - intros Hneg. unfold Api.paginate_data in Hs. destruct D as [|x D'].
    + injection Hs as <-. unfold window. by rewrite drop_nil, take_nil.
    + destruct (Z.eqb_spec k 0); [lia|]. injection Hs as <-.
      rewrite slice_negative by nia. subst first last n. f_equal; [f_equal|]; lia.
Qed.

(** X5: the cap of 1000 does not bound a negative [per_page].  For
    [per_page] [k < 0], page 1 and a non-empty data list of [n]
    records the route answers 200 with the first [n - |k|] records,
    however many they are. *)
Theorem negative_per_page_unbounded (ep : Api.endpoint) (fs : disk)
    (req : Api.request) (js : json) (md : list (string * json))
    (D : list json) :
  Api.load_json_file fs (Api.route_path ep req) = Some js ->
  snapshot_of js md D ->
  D <> [] ->
  Api.get_per_page req < 0 ->
  Api.get_page req = 1 ->
  exists meta pagination,
    Api.route ep fs req =
      {| Api.status := 200;
         Api.body := JObj
           [ ("success", JBool true); ("metadata", meta);
             ("pagination", JObj pagination);
             ("data",
              JList (take (Z.to_nat (Z.of_nat (length D) + Api.get_per_page req))
                       D)) ] |}.
Proof.
  intros Hload Hsnap HD Hk Hp.
  assert (Api.paginate_data D (Api.get_page req) (Api.get_per_page req)
          = Ok (take (Z.to_nat (Z.of_nat (length D) + Api.get_per_page req)) D,
                Z.of_nat (length D),
                (Z.of_nat (length D) + Api.get_per_page req - 1)
                  / Api.get_per_page req)) as Hs.
  { unfold Api.paginate_data. destruct D as [|x D']; [done|].
    destruct (Z.eqb_spec (Api.get_per_page req) 0); [lia|].
    rewrite Hp. replace ((1 - 1) * Api.get_per_page req) with 0 by lia.
    rewrite Z.add_0_l, slice_from_zero by done. done. }
  destruct (serve_snapshot_ok fs (Api.route_path ep req) (route_message ep req)
              _ _ js md D _ _ _ Hload Hsnap Hs) as [meta Hserve].
  eexists meta, _. rewrite route_serve. exact Hserve.
Qed.

(** X6: for a page [p >= 1] and [per_page] [k >= 1], what
    [has_next] reports, [p < total_pages], holds exactly when page
    [p + 1] has a record. *)
Theorem has_next_iff_next_page {A} (D : list A) (p k : Z) :
  1 <= p -> 1 <= k ->
  (p < page_count D k <-> page_records D (p + 1) k <> []).
Proof.
  intros Hp Hk.
  pose proof (ceiling_bounds (Z.of_nat (length D)) k Hk) as Hceil.
  simpl in Hceil. rewrite <- (page_count_ceiling D k Hk) in Hceil.
  rewrite page_records_window by lia.
  replace (p + 1 - 1) with p by lia.
  assert (window D (p * k) k <> [] <-> p * k < Z.of_nat (length D)) as ->.
  { rewrite <- length_zero_iff_nil.
    pose proof (window_length D (p * k) k ltac:(nia) ltac:(lia)). lia. }
  nia.
Qed.

(** ** More on the scrape *)

Section ScrapeFacts.
Implicit Types (m : Monitor.monitor) (w : Monitor.world)
  (st : Monitor.state) (max_pages : option Z).

Lemma over_max_pages_false max_pages page lim :
  Monitor.over_max_pages max_pages page = false ->
  max_pages = Some lim -> 0 < lim -> Z.of_nat page <= lim.
Proof.
  intros Hover -> Hlim. unfold Monitor.over_max_pages in Hover.
  destruct (Z.eqb_spec lim 0); [lia|]. simpl in Hover.
  rewrite Z.gtb_ltb in Hover. by apply Z.ltb_ge in Hover.
Qed.

(** What the page loop returns: the rows of the pages it read, in
    order, and a counter that is the last page read or the one after
    it. *)
Lemma scrape_loop_pages k w max_pages fuel page acc rows P :
  (page <= Monitor.page_limit k)%nat ->
  Monitor.scrape_loop k w max_pages fuel page acc = Ok (rows, P) ->
  exists c,
    rows = acc ++ concat
             (map (fun i => Monitor.extract_table_data k (Monitor.w_page w i))
                (seq page c)) /\
    (P = (page + c)%nat \/ ((1 <= c)%nat /\ S P = (page + c)%nat)) /\
    (page + c <= S (Monitor.page_limit k))%nat /\
    (forall lim, max_pages = Some lim -> 0 < lim -> Z.of_nat page <= lim + 1 ->
                 Z.of_nat (page + c) <= lim + 1).
Proof.
  revert page acc.
  induction fuel as [|fuel IH]; intros page acc Hp Hloop; simpl in Hloop.
  - injection Hloop as <- <-. exists 0%nat. simpl. rewrite app_nil_r.
    repeat split; [left; lia | lia | intros; lia].
  - destruct (Monitor.over_max_pages max_pages page) eqn:Hover.
    + injection Hloop as <- <-. exists 0%nat. simpl. rewrite app_nil_r.
      repeat split; [left; lia | lia | intros; lia].
    + pose proof (fun lim => over_max_pages_false _ _ lim Hover) as Hmax.
      assert (forall rows' P', (rows', P') =
                (acc ++ Monitor.extract_table_data k (Monitor.w_page w page),
                 page) ->
              exists c,
                rows' = acc ++ concat
                  (map (fun i => Monitor.extract_table_data k (Monitor.w_page w i))
                     (seq page c)) /\
                (P' = (page + c)%nat \/ ((1 <= c)%nat /\ S P' = (page + c)%nat)) /\
                (page + c <= S (Monitor.page_limit k))%nat /\
                (forall lim, max_pages = Some lim -> 0 < lim ->
                             Z.of_nat page <= lim + 1 ->
                             Z.of_nat (page + c) <= lim + 1)) as Hstop.
      { intros rows' P' [= -> ->]. exists 1%nat. simpl. rewrite app_nil_r.
        repeat split; [right; lia | lia |].
        intros lim Hm Hlim _. specialize (Hmax lim Hm Hlim). lia. }
      destruct (Monitor.pv_has_next (Monitor.w_page w page)) as [[|]|e];
        cbn [bind negb] in Hloop; [| |done].
      * destruct (Monitor.pv_click_next (Monitor.w_page w page));
          cbn [negb] in Hloop.
        -- destruct (Nat.ltb_spec (Monitor.page_limit k) (S page)) as [Hlim|Hlim].
           ++ injection Hloop as <- <-. exists 1%nat. simpl. rewrite app_nil_r.
              repeat split; [left; lia | lia |].
              intros lim Hm Hl _. specialize (Hmax lim Hm Hl). lia.
           ++ destruct (IH _ _ Hlim Hloop) as (c & -> & HP & Hc & Hbound).
              exists (S c). simpl. rewrite <- app_assoc.
              repeat split; [| lia |].
              ** destruct HP as [-> | [Hc1 HP]]; [left; lia | right; lia].
              ** intros lim Hm Hl _. specialize (Hmax lim Hm Hl).
                 specialize (Hbound lim Hm Hl). lia.
        -- injection Hloop as <- <-. by apply Hstop.
      * injection Hloop as <- <-. by apply Hstop.
Qed.

Lemma page_limit_pos k : (1 <= Monitor.page_limit k)%nat.
Proof. destruct k; simpl; lia. Qed.

(** What a scrape that succeeds went through. *)
Lemma scrape_all_pages_inv m w max_pages st st' env :
  Monitor.scrape_all_pages m w max_pages st = (st', Some env) ->
  exists all_data page,
    Monitor.scrape_loop (Monitor.mon_kind m) w max_pages
      (S (Monitor.page_limit (Monitor.mon_kind m))) 1 [] = Ok (all_data, page) /\
    env = JObj
      [ ("metadata",
         JObj (Monitor.metadata (Monitor.mon_kind m) (Monitor.w_now w)
                 (length all_data) page (scraped_headers (Monitor.mon_kind m) w)));
        ("data",
         JList (map (fun row =>
                       JObj (Monitor.structure_row
                               (scraped_headers (Monitor.mon_kind m) w) row))
                  all_data)) ] /\
    (Monitor.driver st = true \/ Monitor.w_init_driver w = true) /\
    Monitor.w_open w = Ok tt /\
    Monitor.w_wait_for_table w = Ok true /\
    Monitor.driver st' = true.
Proof.
  unfold Monitor.scrape_all_pages, Monitor.init_driver, scraped_headers.
  destruct (Monitor.driver st) eqn:Hd.
  - cbn [negb]. destruct (Monitor.w_open w) as [[]|]; cbn [negb bind];
      [|intros [=]].
    destruct (Monitor.w_wait_for_table w) as [[|]|]; cbn [negb bind];
      [|intros [=]..].
    destruct (Monitor.scrape_loop _ _ _ _ _ _) as [[all_data page]|];
      cbn [negb bind]; [|intros [=]].
    intros [= <- <-]. exists all_data, page.
    rewrite length_map, map_map. by repeat split; auto.
  - destruct (Monitor.w_init_driver w); cbn [negb]; [|intros [=]].
    destruct (Monitor.w_open w) as [[]|]; cbn [negb bind]; [|intros [=]].
    destruct (Monitor.w_wait_for_table w) as [[|]|]; cbn [negb bind];
      [|intros [=]..].
    destruct (Monitor.scrape_loop _ _ _ _ _ _) as [[all_data page]|];
      cbn [negb bind]; [|intros [=]].
    intros [= <- <-]. exists all_data, page.
    rewrite length_map, map_map. by repeat split; auto.
Qed.

Lemma extract_table_headers_nonempty w h :
  In h (Monitor.extract_table_headers w) -> h <> "".
Proof.
  unfold Monitor.extract_table_headers.
  destruct (Monitor.w_header_texts w) as [texts|]; [|done].
  rewrite in_map_iff. intros (t & <- & Ht). apply filter_In in Ht as [_ Ht].
  intros Hempty. by rewrite Hempty in Ht.
Qed.

Lemma scraped_headers_nonempty k w :
  scraped_headers k w <> [] /\ forall h, In h (scraped_headers k w) -> h <> "".
Proof.
  unfold scraped_headers.
  destruct (Monitor.extract_table_headers w) as [|h0 hs] eqn:E.
  - split; [by destruct k|]. destruct k; simpl; intros h Hin Hempty; subst h;
      repeat (destruct Hin as [Hin|Hin]; [discriminate Hin|]); done.
  - split; [done|]. intros h Hin. apply (extract_table_headers_nonempty w).
    by rewrite E.
Qed.

End ScrapeFacts.


(** X8: the edge values of [max_pages].  A limit of 0 is no limit:
    the scrape goes as with [None].  Under a negative limit a scrape
    that succeeds reads no page: no records, [total_records] 0 and
    [total_pages] 1. *)
Theorem max_pages_edges (m : Monitor.monitor) (w : Monitor.world)
    (st : Monitor.state) :
  Monitor.scrape_all_pages m w (Some 0) st
    = Monitor.scrape_all_pages m w None st /\
  (forall lim st' env, lim < 0 ->
     Monitor.scrape_all_pages m w (Some lim) st = (st', Some env) ->
     exists md,
       env = JObj [ ("metadata", JObj md); ("data", JList []) ] /\
       Py.dict_get md "total_records" = Some (JNum 0) /\
       Py.dict_get md "total_pages" = Some (JNum 1)).
Proof.
  split.
  - assert (forall fuel page acc,
              Monitor.scrape_loop (Monitor.mon_kind m) w (Some 0) fuel page acc
              = Monitor.scrape_loop (Monitor.mon_kind m) w None fuel page acc)
      as Hloop.
    { induction fuel as [|fuel IH]; intros page acc; [done|]. simpl.
      destruct (Monitor.pv_has_next _) as [[|]|]; cbn [bind negb]; [|done..].
      destruct (Monitor.pv_click_next _); cbn [negb]; [|done].
      destruct (_ <? _)%nat; [done | apply IH]. }
    unfold Monitor.scrape_all_pages. by rewrite Hloop.
  - intros lim st' env Hlim Hscrape.
    destruct (scrape_all_pages_inv _ _ _ _ _ _ Hscrape)
      as (all_data & page & Hloop & -> & _).
    cbn [Monitor.scrape_loop] in Hloop.
    assert (Monitor.over_max_pages (Some lim) 1 = true) as Hover.
    { unfold Monitor.over_max_pages. destruct (Z.eqb_spec lim 0); [lia|].
      simpl. rewrite Z.gtb_ltb. apply Z.ltb_lt. lia. }
    rewrite Hover in Hloop. injection Hloop as <- <-.
    eexists. split; [reflexivity|]. by destruct (Monitor.mon_kind m).
Qed.

(** X9: in every result object the [headers] list is not empty and
    holds no empty name, and every record of [data] is an object
    whose keys are all among those headers, with no more keys than
    there are headers: the [Column_n] fallback never names a key. *)
Theorem envelope_headers_and_keys (m : Monitor.monitor) (w : Monitor.world)
    (max_pages : option Z) (st st' : Monitor.state) (env : json) :
  Monitor.scrape_all_pages m w max_pages st = (st', Some env) ->
  exists md (hs : list string) (records : list (list (string * json))),
    env = JObj [ ("metadata", JObj md); ("data", JList (map JObj records)) ] /\
    Py.dict_get md "headers" = Some (JList (map JStr hs)) /\
    hs <> [] /\
    (forall h, In h hs -> h <> "") /\
    (forall r, In r records ->
       (forall key, In key (Py.dict_keys r) -> In key hs) /\
       (length r <= length hs)%nat).
Proof.
  intros Hscrape.
  destruct (scrape_all_pages_inv _ _ _ _ _ _ Hscrape)
    as (all_data & page & _ & -> & _).
  destruct (scraped_headers_nonempty (Monitor.mon_kind m) w) as [Hne Hnames].
  eexists _, (scraped_headers (Monitor.mon_kind m) w),
    (map (Monitor.structure_row (scraped_headers (Monitor.mon_kind m) w)) all_data).
  split; [by rewrite map_map|].
  split; [by destruct (Monitor.mon_kind m)|].
  split; [done|]. split; [done|].
  intros r Hr. apply in_map_iff in Hr as (row & <- & _).
  rewrite structure_row_pairs. split.
  - intros key Hkey. apply dict_of_pairs_keys in Hkey as [[] | Hkey].
    rewrite combine_fst in Hkey. apply list_elem_of_In in Hkey.
    apply elem_of_take in Hkey as (i & Hi & _).
    apply list_elem_of_In, list_elem_of_lookup. eauto.
  - pose proof (dict_of_pairs_length [] (combine
                  (scraped_headers (Monitor.mon_kind m) w) row)) as Hlen.
    rewrite length_combine in Hlen. simpl in Hlen. lia.
Qed.


(** ** Paths and the clean-up *)

Section Paths.
Implicit Types (s t a b : string).

Lemma append_assoc a b c : (a +:+ b) +:+ c = a +:+ b +:+ c.
Proof.
  induction a as [|ch a IH]; [done|]. by rewrite !append_cons, IH.
Qed.

Lemma append_nil_r s : s +:+ "" = s.
Proof. induction s as [|ch s IH]; [done|]. by rewrite append_cons, IH. Qed.

Lemma length_append a b :
  String.length (a +:+ b) = (String.length a + String.length b)%nat.
Proof.
  induction a as [|ch a IH]; [done|]. rewrite append_cons. simpl. by rewrite IH.
Qed.

Lemma substring_full s : String.substring 0 (String.length s) s = s.
Proof. induction s as [|ch s IH]; [done|]. simpl. by rewrite IH. Qed.

Lemma substring_skip a b n :
  String.substring (String.length a) n (a +:+ b) = String.substring 0 n b.
Proof. induction a as [|ch a IH]; [done|]. rewrite append_cons. simpl. apply IH. Qed.

(** Joining a directory and a relative name puts the name behind the
    directory prefix. *)
Lemma path_join_relative dir name :
  String.prefix "/" name = false ->
  Py.path_join dir name = Py.path_join dir "" +:+ name.
Proof.
  intros Hrel. unfold Py.path_join. rewrite Hrel.
  change (String.prefix "/" "") with false. cbv iota.
  destruct (String.eqb dir ""); [done|].
  destruct (String.eqb _ "/").
  - by rewrite append_nil_r.
  - by rewrite append_assoc, append_assoc.
Qed.

(** Listing the directory gives the name back. *)
Lemma name_in_dir_join dir name f :
  String.prefix "/" name = false ->
  Monitor.name_in_dir dir (Py.path_join dir name) = Some f -> f = name.
Proof.
  intros Hrel. rewrite (path_join_relative _ _ Hrel). unfold Monitor.name_in_dir.
  cbv zeta. destruct (String.prefix (Py.path_join dir "") _); [|done].
  rewrite substring_skip, length_append.
  replace (String.length (Py.path_join dir "") + String.length name
           - String.length (Py.path_join dir ""))%nat
    with (String.length name) by lia.
  rewrite substring_full. destruct (_ || _); [done|]. by intros [= <-].
Qed.

Lemma latest_name_relative k : String.prefix "/" (Monitor.latest_name k) = false.
Proof. by destruct k. Qed.

Lemma keeps_latest_name k : Monitor.keeps k (Monitor.latest_name k) = true.
Proof.
  destruct k as [market_type|]; [|done]. simpl.
  apply prefix_spec. exists ".json". by rewrite append_assoc.
Qed.

Lemma cleanup_spares_latest (m : Monitor.monitor) (w : Monitor.world) :
  Monitor.cleanup_removes m w (Monitor.latest_path m) = false.
Proof.
  unfold Monitor.cleanup_removes, Monitor.latest_path.
  destruct (Monitor.name_in_dir _ _) as [f|] eqn:E; [|done].
  apply name_in_dir_join in E; [|apply latest_name_relative]. subst f.
  by rewrite keeps_latest_name, andb_false_r.
Qed.

Lemma cleanup_lookup (m : Monitor.monitor) (w : Monitor.world)
    (st : Monitor.state) path :
  Monitor.fs (Monitor.cleanup_old_files m w st) !! path
  = if Monitor.cleanup_removes m w path then None else Monitor.fs st !! path.
Proof.
  unfold Monitor.cleanup_old_files. simpl. rewrite map_lookup_filter.
  destruct (Monitor.fs st !! path) as [d|]; simpl.
  - destruct (Monitor.cleanup_removes m w path) eqn:E.
    + by rewrite option_guard_False by (simpl; congruence).
    + by rewrite option_guard_True.
  - by destruct (Monitor.cleanup_removes m w path).
Qed.

End Paths.


Section CycleFacts.
Implicit Types (m : Monitor.monitor) (w : Monitor.world)
  (st : Monitor.state) (max_pages : option Z).

(** What a cycle does once the scrape has returned a result. *)
Lemma run_single_scrape_good m w max_pages st st1 env :
  Monitor.scrape_all_pages m w max_pages st = (st1, Some env) ->
  Monitor.run_single_scrape m w max_pages st
  = ({| Monitor.driver := Monitor.driver st1;
        Monitor.last_data := Some env;
        Monitor.fs := Monitor.fs
          (Monitor.cleanup_old_files m w
             (Monitor.save_latest m w (Some env) st1)) |},
     Some env).
Proof.
  intros E. destruct (scrape_all_pages_result _ _ _ _ _ _ E)
    as (hs & rows & page & ->).
  unfold Monitor.run_single_scrape, Monitor.run_cycle. rewrite E.
  cbn [Py.truthy]. f_equal. f_equal.
  unfold Monitor.cleanup_old_files, Monitor.save_latest. cbn [Py.truthy negb].
  cbv iota. cbn [Monitor.driver]. by destruct (Monitor.w_write_opens w).
Qed.

Lemma save_latest_lookup m w st env :
  Py.truthy env = true ->
  Monitor.fs (Monitor.save_latest m w (Some env) st) !! Monitor.latest_path m
  = if Monitor.w_write_opens w
    then Some (if Monitor.w_write_dumps w then FileJson env else FileGarbage)
    else Monitor.fs st !! Monitor.latest_path m.
Proof.
  intros Ht. unfold Monitor.save_latest. rewrite Ht. simpl.
  destruct (Monitor.w_write_opens w); simpl; [|done].
  by rewrite lookup_insert_eq.
Qed.

Lemma save_latest_other m w st data path :
  path <> Monitor.latest_path m ->
  Monitor.fs (Monitor.save_latest m w data st) !! path = Monitor.fs st !! path.
Proof.
  intros Hne. unfold Monitor.save_latest. destruct data as [d|]; [|done].
  destruct (Py.truthy d); simpl; [|done].
  destruct (Monitor.w_write_opens w); simpl; [|done].
  by rewrite lookup_insert_ne.
Qed.

Lemma envelope_snapshot md records :
  snapshot_of (JObj [ ("metadata", JObj md); ("data", JList records) ]) md records.
Proof. eexists. by repeat split. Qed.

(** The file a cycle leaves at the snapshot path can be served. *)
Lemma run_single_scrape_servable m w max_pages st :
  servable (Monitor.fs st !! Monitor.latest_path m) ->
  servable (Monitor.fs (fst (Monitor.run_single_scrape m w max_pages st))
              !! Monitor.latest_path m).
Proof.
  intros Hserv.
  destruct (Monitor.scrape_all_pages m w max_pages st) as [st1 [env|]] eqn:E.
  - rewrite (run_single_scrape_good _ _ _ _ _ _ E).
  cbn [fst snd Monitor.fs Monitor.last_data].
    rewrite cleanup_lookup, cleanup_spares_latest.
    pose proof (scrape_all_pages_fs m w max_pages st) as Hfs.
    rewrite E in Hfs. simpl in Hfs.
    destruct (scrape_all_pages_result _ _ _ _ _ _ E)
      as (hs & rows & page & ->).
    rewrite save_latest_lookup by done.
    destruct (Monitor.w_write_opens w); [|by rewrite Hfs].
    destruct (Monitor.w_write_dumps w); [|right; by left].
    right. right. eexists _, _, _. split; [done|]. apply envelope_snapshot.
  - destruct (run_single_scrape_none m w max_pages st) as [_ ->]; [|done].
    by rewrite E.
Qed.

Lemma run_cycles_servable m ticks max_pages st :
  servable (Monitor.fs st !! Monitor.latest_path m) ->
  servable (Monitor.fs (Schedule.run_cycles m ticks max_pages st)
              !! Monitor.latest_path m).
Proof.
  revert st. induction ticks as [|w ticks IH]; intros st Hserv; [done|].
  simpl. apply IH. by apply run_single_scrape_servable.
Qed.

(** A servable file never makes a route fail, as long as [per_page]
    is not zero. *)
Lemma serve_snapshot_servable (fs : disk) path msg p k :
  servable (fs !! path) -> k <> 0 ->
  Api.status (Api.serve_snapshot fs path msg p k) = 200 \/
  Api.status (Api.serve_snapshot fs path msg p k) = 404.
Proof.
  intros [Hnone | [Hgarbage | (js & md & D & Hfile & Hsnap)]] Hk.
  - right. by rewrite serve_snapshot_absent.
  - right. unfold Api.serve_snapshot, Api.load_json_file. by rewrite Hgarbage.
  - left. destruct (paginate_data_returns D p k Hk) as [s Hs].
    apply load_json_file_Some in Hfile.
    destruct (serve_snapshot_ok fs path msg p k js md D s _ _ Hfile Hsnap Hs)
      as [meta ->]. done.
Qed.

(** The whole answer to a well-formed snapshot, metadata included. *)
Lemma serve_snapshot_full (fs : disk) path msg p k js md D :
  Api.load_json_file fs path = Some js ->
  snapshot_of js md D ->
  1 <= p -> 1 <= k ->
  Api.serve_snapshot fs path msg p k =
    {| Api.status := 200;
       Api.body := JObj
         [ ("success", JBool true);
           ("metadata", JObj
             [ ("scrape_timestamp", Py.dict_get_none md "scrape_timestamp");
               ("total_records", Py.dict_get_none md "total_records");
               ("total_pages_scraped", Py.dict_get_none md "total_pages");
               ("source_url", Py.dict_get_none md "source_url");
               ("market_type", Py.dict_get_default md "market_type" (JStr "N/A")) ]);
           ("pagination", JObj
             [ ("page", JNum p);
               ("per_page", JNum k);
               ("total_records", JNum (Z.of_nat (length D)));
               ("total_pages", JNum ((Z.of_nat (length D) + k - 1) / k));
               ("has_next", JBool (p <? (Z.of_nat (length D) + k - 1) / k));
               ("has_prev", JBool (p >? 1)) ]);
           ("data", JList (window D ((p - 1) * k) k)) ] |}.
Proof.
  intros Hload Hsnap Hp Hk. unfold Api.serve_snapshot. rewrite Hload.
  rewrite (snapshot_truthy _ _ _ Hsnap). simpl negb. cbv iota.
  destruct Hsnap as (kvs & -> & Hdata & Hmeta).
  cbn [bind]. rewrite Hmeta.
  unfold Py.dict_get_default at 1. rewrite Hdata.
  unfold Api.paginate_json. rewrite paginate_data_ok by done.
  reflexivity.
Qed.

End CycleFacts.




(** X15: the monitors write where the API reads.  With the output
    directories the classes default to, the CRD monitor's snapshot
    path is the file of [/crd], and the snapshot path of an
    announcements monitor for market type [t] is the file of
    [/announcements] for every [market] parameter equal to [t] up to
    the case of ASCII letters. *)
Theorem monitor_paths_match_routes (market_type : string) (req : Api.request) :
  Monitor.latest_path {| Monitor.mon_kind := Monitor.CRDMonitor;
                         Monitor.output_dir := "crd_data" |}
    = Api.route_path Api.Crd req /\
  (Py.lower (default "equity" (Api.arg_market req)) = Py.lower market_type ->
   Monitor.latest_path
     {| Monitor.mon_kind := Monitor.AnnouncementsMonitor market_type;
        Monitor.output_dir := "announcements_data" |}
   = Api.route_path Api.Announcements req).
Proof.
  split; [reflexivity|]. intros Hmarket.
  unfold Api.route_path, Api.get_market. rewrite Hmarket. reflexivity.
Qed.


(** ** The health route *)

Section Health.
Implicit Types (fs : disk).

Lemma health_files_present fs :
  ApiStatus.health_files fs
  = map (fun ep => (health_key ep, present fs ep)) all_endpoints.
Proof. reflexivity. Qed.

Lemma present_spec fs ep :
  present fs ep = true <-> is_Some (fs !! Api.route_path ep default_request).
Proof.
  unfold present, ApiStatus.path_exists.
  destruct (fs !! _); split; try done; by intros [? ?].
Qed.

End Health.

(** X17: [/health] always answers 200.  Its [monitors] object holds,
    for each paged route, whether the route's equity snapshot file
    exists; [status] is [healthy] exactly when all four exist,
    [initializing] exactly when none does and [starting] otherwise,
    and [ready] counts the files that exist out of 4. *)
Theorem health_status (fs : disk) (now : string) :
  exists status,
    ApiStatus.health fs now =
      {| Api.status := 200;
         Api.body := JObj
           [ ("status", JStr status);
             ("timestamp", JStr now);
             ("monitors",
              JObj (map (fun ep => (health_key ep, JBool (present fs ep)))
                      all_endpoints));
             ("ready",
              JStr (Monitor.str_of_nat
                      (length (List.filter (present fs) all_endpoints))
                    +:+ "/4")) ] |} /\
    (status = "healthy" <-> forall ep, present fs ep = true) /\
    (status = "initializing" <-> forall ep, present fs ep = false) /\
    (status = "starting" <->
       (exists ep, present fs ep = true) /\ (exists ep, present fs ep = false)).
Proof.
  assert ((forall ep, present fs ep = true) <->
          present fs Api.EventCalendar = true /\
          present fs Api.Announcements = true /\
          present fs Api.Crd = true /\ present fs Api.CreditRating = true)
    as Hall by (split; [by auto | by intros (? & ? & ? & ?) [| | |]]).
  assert ((forall ep, present fs ep = false) <->
          present fs Api.EventCalendar = false /\
          present fs Api.Announcements = false /\
          present fs Api.Crd = false /\ present fs Api.CreditRating = false)
    as Hnone by (split; [by auto | by intros (? & ? & ? & ?) [| | |]]).
  assert ((exists ep, present fs ep = true) <->
          present fs Api.EventCalendar = true \/
          present fs Api.Announcements = true \/
          present fs Api.Crd = true \/ present fs Api.CreditRating = true)
    as Hsome by (split; [intros [[| | |] ?]; auto | naive_solver]).
  assert ((exists ep, present fs ep = false) <->
          present fs Api.EventCalendar = false \/
          present fs Api.Announcements = false \/
          present fs Api.Crd = false \/ present fs Api.CreditRating = false)
    as Hlack by (split; [intros [[| | |] ?]; auto | naive_solver]).
  unfold ApiStatus.health. rewrite health_files_present.
  unfold all_endpoints.
  cbn [map forallb snd fst ApiStatus.ready_count list_sum List.filter].
  destruct (present fs Api.EventCalendar), (present fs Api.Announcements),
    (present fs Api.Crd), (present fs Api.CreditRating);
    (eexists; split; [reflexivity|]); rewrite Hall, Hnone, Hsome, Hlack;
    naive_solver.
Qed.

(** X18: what [/health] reports and what the routes do.  For a
    request for the equity market, a route whose file [/health]
    reports as missing answers 404, so a route that answers 200 is
    reported as present. *)
Theorem health_flag_and_route (ep : Api.endpoint) (fs : disk) (now : string)
    (req : Api.request) :
  Api.get_market req = "equity" ->
  exists status monitors ready flag,
    Api.body (ApiStatus.health fs now)
      = JObj [ ("status", status); ("timestamp", JStr now);
               ("monitors", JObj monitors); ("ready", ready) ] /\
    Py.dict_get monitors (health_key ep) = Some (JBool flag) /\
    (flag = false -> Api.status (Api.route ep fs req) = 404) /\
    (Api.status (Api.route ep fs req) = 200 -> flag = true).
Proof.
  intros Hmarket.
  assert (Api.route_path ep req = Api.route_path ep default_request) as Hpath.
  { destruct ep; simpl; by rewrite ?Hmarket. }
  assert (present fs ep = false -> Api.status (Api.route ep fs req) = 404)
    as Hmissing.
  { unfold present, ApiStatus.path_exists. rewrite <- Hpath.
    destruct (fs !! Api.route_path ep req) eqn:E; [done|]. intros _.
    rewrite route_serve. by rewrite serve_snapshot_absent. }
  eexists _, _, _, (present fs ep). split; [|split; [|split]].
  - unfold ApiStatus.health. rewrite health_files_present. reflexivity.
  - by destruct ep.
  - done.
  - intros H200. destruct (present fs ep); [done|].
    rewrite Hmissing in H200 by done. discriminate.
Qed.

(** ** The heat map routes *)

Section HeatmapRoutes.

Lemma known_category_spec c :
  HeatmapApi.known_category c = true <->
  c = "broad-market" \/ c = "sectoral" \/ c = "thematic" \/ c = "strategy".
Proof.
  unfold HeatmapApi.known_category. simpl.
  rewrite !orb_true_iff, !String.eqb_eq. naive_solver.
Qed.

Lemma known_category_name c :
  HeatmapApi.known_category c = true <->
  exists n, HeatmapApi.category_name c = Some n.
Proof.
  rewrite known_category_spec. unfold HeatmapApi.category_name. split.
  - intros [-> | [-> | [-> | ->]]]; by eexists.
  - unfold HeatmapApi.categories. cbn [List.find fst].
    destruct (String.eqb_spec "broad-market" c) as [<-|]; [by left|].
    destruct (String.eqb_spec "sectoral" c) as [<-|]; [by right; left|].
    destruct (String.eqb_spec "thematic" c) as [<-|]; [by right; right; left|].
    destruct (String.eqb_spec "strategy" c) as [<-|]; [by right; right; right|].
    by intros [? ?].
Qed.

Lemma index_given_dec req : index_given req \/ ~ index_given req.
Proof.
  unfold index_given. destruct (HeatmapApi.arg_index req) as [[|c s]|].
  - right. by intros (? & ? & ?).
  - left. by exists c, s.
  - right. by intros (? & ? & ?).
Qed.

End HeatmapRoutes.

(** X19: the status of [/heatmap].  The answer is 400 exactly when
    the [index] parameter is missing or empty or the category (by
    default [broad-market]) is not one of the four; in that case the
    scraper plays no part in the answer, and a missing index is
    reported before a bad category.  Otherwise it is 500 when the
    scraper returns nothing and 200 when it returns a heat map. *)
Theorem heatmap_route_status
    (service : string -> string -> option Heatmap.heatmap)
    (req : HeatmapApi.request) :
  let r := HeatmapApi.get_heatmap service req in
  let valid := index_given req /\
               HeatmapApi.known_category (asked_category req) = true in
  (Api.status r = 400 <-> ~ valid) /\
  (~ valid -> forall service', HeatmapApi.get_heatmap service' req = r) /\
  (~ index_given req ->
     Api.body r = JObj [ ("success", JBool false);
                         ("error", JStr "Missing required parameter: index") ]) /\
  (forall index_name, valid -> HeatmapApi.arg_index req = Some index_name ->
     (Api.status r = 500 <-> service (asked_category req) index_name = None) /\
     (forall h, service (asked_category req) index_name = Some h ->
        r = {| Api.status := 200;
               Api.body := JObj [ ("success", JBool true);
                                  ("data", HeatmapApi.heatmap_json h) ] |})).
Proof.
  intros r valid. subst r valid.
  unfold HeatmapApi.get_heatmap, index_given, asked_category.
  destruct (HeatmapApi.arg_index req) as [[|c s]|] eqn:Hidx;
    [ | destruct (HeatmapApi.known_category
                    (default "broad-market" (HeatmapApi.arg_category req)))
          eqn:Hknown;
        [ destruct (service (default "broad-market" (HeatmapApi.arg_category req))
                      (String c s)) as [h|] eqn:Hs | ] | ];
    cbn [negb Api.status Api.body Api.jsonify];
    (split; [|split; [|split]]); try naive_solver.
Qed.

(** X20: what [/heatmap] serves.  With the service as the class
    implements it, a 200 answer carries the index asked for, the
    display name of the category, the scrape time and the first
    occurrence of each symbol among the tiles found: the symbols are
    pairwise distinct and [total_stocks] is the length of [stocks]. *)
Theorem heatmap_route_data
    (found : string -> string -> option (list Heatmap.stock))
    (now : string) (req : HeatmapApi.request) :
  Api.status (HeatmapApi.get_heatmap
                (HeatmapApi.service_get_heatmap found now) req) = 200 ->
  exists index_name cname collected stocks,
    HeatmapApi.arg_index req = Some index_name /\
    HeatmapApi.category_name (asked_category req) = Some cname /\
    found (asked_category req) index_name = Some collected /\
    stocks = Heatmap.keep_first Heatmap.symbol [] collected /\
    NoDup (map Heatmap.symbol stocks) /\
    Api.body (HeatmapApi.get_heatmap
                (HeatmapApi.service_get_heatmap found now) req)
    = JObj
        [ ("success", JBool true);
          ("data", JObj
            [ ("index_name", JStr index_name);
              ("category", JStr cname);
              ("total_stocks", JNum (Z.of_nat (length stocks)));
              ("scrape_timestamp", JStr now);
              ("stocks", JList (map HeatmapApi.stock_json stocks)) ]) ].
Proof.
  unfold HeatmapApi.get_heatmap, asked_category.
  destruct (HeatmapApi.arg_index req) as [[|c s]|] eqn:Hidx; [done| |done].
  destruct (HeatmapApi.known_category _); simpl; [|done].
  unfold HeatmapApi.service_get_heatmap.
  destruct (HeatmapApi.category_name _) as [cname|] eqn:Hname; [|done].
  destruct (found _ _) as [collected|] eqn:Hfound; simpl; [|done]. intros _.
  exists (String c s), cname, collected,
    (Heatmap.keep_first Heatmap.symbol [] collected).
  split; [done|]. split; [done|]. split; [done|]. split; [done|].
  split; [apply keep_first_NoDup|].
  unfold HeatmapApi.heatmap_json, Heatmap.get_heatmap. simpl.
  by rewrite remove_duplicates_spec.
Qed.

(** X21: what [/indices] serves.  An unknown category is answered
    400 without the scraper; for a known one (by default
    [broad-market]) the answer is 500 when the scraper returns
    nothing, and otherwise 200 with the first occurrence of each card
    name among the cards found, their names pairwise distinct and
    [total] their number. *)
Theorem indices_route
    (found : string -> option (list Heatmap.index_card))
    (now : string) (req : HeatmapApi.request) :
  let r := HeatmapApi.get_indices (HeatmapApi.service_get_indices found) now req in
  let category := asked_category req in
  (HeatmapApi.known_category category = false ->
     r = HeatmapApi.invalid_category /\ Api.status r = 400) /\
  (HeatmapApi.known_category category = true -> found category = None ->
     Api.status r = 500) /\
  (forall cards,
     HeatmapApi.known_category category = true -> found category = Some cards ->
     exists cname,
       HeatmapApi.category_name category = Some cname /\
       NoDup (map Heatmap.name (Heatmap.keep_first Heatmap.name [] cards)) /\
       r = {| Api.status := 200;
              Api.body := JObj
                [ ("success", JBool true);
                  ("category", JStr category);
                  ("category_name", JStr cname);
                  ("total",
                   JNum (Z.of_nat
                           (length (Heatmap.keep_first Heatmap.name [] cards))));
                  ("indices",
                   JList (map HeatmapApi.card_json
                            (Heatmap.keep_first Heatmap.name [] cards)));
                  ("timestamp", JStr now) ] |}).
Proof.
  intros r category. subst r category.
  unfold HeatmapApi.get_indices, asked_category.
  split; [|split].
  - by intros ->.
  - intros -> Hnone. unfold HeatmapApi.service_get_indices. by rewrite Hnone.
  - intros cards Hknown Hfound. rewrite Hknown.
    unfold HeatmapApi.service_get_indices. rewrite Hfound. simpl.
    apply known_category_name in Hknown as [cname Hname].
    exists cname. split; [done|]. split; [apply keep_first_NoDup|].
    rewrite Hname. unfold Heatmap.get_indices.
    by rewrite remove_duplicates_spec.
Qed.

(** ** Addressing a record; removing duplicates twice *)

(** X22: where a record is.  For [per_page] [k >= 1], record number
    [i] of the data list (from 0) is served on page [i / k + 1], at
    place [i mod k] of that page. *)
Theorem record_address {A} (D : list A) (k : Z) (i : nat) :
  1 <= k ->
  page_records D (Z.of_nat i / k + 1) k !! Z.to_nat (Z.of_nat i mod k) = D !! i.
Proof.
  intros Hk.
  pose proof (Z.div_mod (Z.of_nat i) k ltac:(lia)) as Hdm.
  pose proof (Z.mod_pos_bound (Z.of_nat i) k ltac:(lia)) as Hmod.
  assert (0 <= Z.of_nat i / k) as Hdiv by (apply Z.div_pos; lia).
  rewrite page_records_window by lia.
  rewrite window_lookup by nia.
  rewrite decide_True by lia. f_equal. nia.
Qed.

Section DedupTwice.
Context {A : Type} (key : A -> string).

Lemma keep_first_fresh (earlier l : list A) :
  NoDup (map key l) ->
  (forall x, In x l -> ~ In (key x) (map key earlier)) ->
  Heatmap.keep_first key earlier l = l.
Proof.
  revert earlier. induction l as [|x l IH]; intros earlier Hnd Hfresh; [done|].
  simpl in *. apply NoDup_cons in Hnd as [Hx Hnd].
  assert (existsb (fun y => String.eqb (key y) (key x)) earlier = false) as ->.
  { apply not_true_iff_false. rewrite existsb_key. apply Hfresh. by left. }
  simpl. f_equal. apply IH; [done|].
  intros y Hy. rewrite map_app, in_app_iff. simpl.
  intros [Hin | [Heq | []]].
  - by apply (Hfresh y); [right|].
  - apply Hx. rewrite Heq. apply list_elem_of_In, in_map. done.
Qed.

End DedupTwice.

(** X23: the duplicate removal changes nothing on a list without
    duplicates, so it is idempotent: the final removal in
    [get_heatmap] leaves alone a list whose symbols are already
    distinct, and removing twice is removing once. *)
Theorem dedup_idempotent {A} (key : A -> string) (l : list A) :
  (NoDup (map key l) -> Heatmap.remove_duplicates key l = l) /\
  Heatmap.remove_duplicates key (Heatmap.remove_duplicates key l)
    = Heatmap.remove_duplicates key l.
Proof.
  assert (forall l', NoDup (map key l') -> Heatmap.remove_duplicates key l' = l')
    as Hfix.
  { intros l' Hnd. rewrite remove_duplicates_spec.
    apply keep_first_fresh; [done|]. by intros x _ []. }
  split; [apply Hfix|].
  apply Hfix. rewrite remove_duplicates_spec. apply keep_first_NoDup.
Qed.

(** ** The further properties at the worked inputs *)

Lemma unusable_snapshot_404_witness :
  garbage_disk !! Api.route_path Api.Crd (sample_request 1 50)
    = Some FileGarbage /\
  Api.status (Api.route Api.Crd garbage_disk (sample_request 1 50)) = 404.
Proof.
  assert (garbage_disk !! Api.route_path Api.Crd (sample_request 1 50)
          = Some FileGarbage) as Hfile by reflexivity.
  split; [exact Hfile|].
  rewrite (unusable_snapshot_404 Api.Crd garbage_disk (sample_request 1 50)
             (or_introl Hfile)).
  reflexivity.
Defined.

Lemma non_object_snapshot_500_witness :
  list_disk !! Api.route_path Api.Crd (sample_request 1 50)
    = Some (FileJson (JList [ JNum 1; JNum 2 ])) /\
  Api.status (Api.route Api.Crd list_disk (sample_request 1 50)) = 500.
Proof.
  assert (list_disk !! Api.route_path Api.Crd (sample_request 1 50)
          = Some (FileJson (JList [ JNum 1; JNum 2 ]))) as Hfile by reflexivity.
  split; [exact Hfile|].
  exact (proj2 (non_object_snapshot_500 Api.Crd list_disk (sample_request 1 50)
                  _ Hfile eq_refl ltac:(discriminate))).
Defined.


Lemma page_below_one_witness :
  1 <= Api.get_per_page (sample_request (-1) 2) /\
  Api.get_page (sample_request (-1) 2) <= 0 /\
  Api.status (Api.route Api.Crd sample_disk (sample_request (-1) 2)) = 200.
Proof.
  assert (1 <= Api.get_per_page (sample_request (-1) 2)) as Hk
    by (vm_compute; discriminate).
  assert (Api.get_page (sample_request (-1) 2) <= 0) as Hp
    by (vm_compute; discriminate).
  split; [exact Hk|]. split; [exact Hp|].
  destruct (page_below_one Api.Crd sample_disk (sample_request (-1) 2)
              sample_snapshot sample_metadata sample_rows
              (sample_disk_load _) sample_snapshot_shape Hk Hp)
    as (meta & pagination & records & -> & _).
  reflexivity.
Defined.

Lemma negative_per_page_unbounded_witness :
  Api.get_per_page (sample_request 1 (-1)) < 0 /\
  exists meta pagination,
    Api.route Api.Crd sample_disk (sample_request 1 (-1)) =
      {| Api.status := 200;
         Api.body := JObj
           [ ("success", JBool true); ("metadata", meta);
             ("pagination", JObj pagination);
             ("data", JList (take 2 sample_rows)) ] |}.
Proof.
  assert (Api.get_per_page (sample_request 1 (-1)) < 0) as Hk by reflexivity.
  split; [exact Hk|].
  exact (negative_per_page_unbounded Api.Crd sample_disk (sample_request 1 (-1))
           sample_snapshot sample_metadata sample_rows
           (sample_disk_load _) sample_snapshot_shape ltac:(discriminate)
           Hk eq_refl).
Defined.

Lemma has_next_iff_next_page_witness :
  1 <= 2 /\
  (2 < page_count [10; 20; 30; 40; 50] 2
   <-> page_records [10; 20; 30; 40; 50] (2 + 1) 2 <> []).
Proof.
  assert (1 <= 2) as H by lia.
  split; [exact H|].
  exact (has_next_iff_next_page [10; 20; 30; 40; 50] 2 2 H H).
Defined.

Lemma world_up_scrape max_pages :
  max_pages = None \/ max_pages = Some 5 ->
  Monitor.scrape_all_pages sample_monitor world_up max_pages sample_state
  = ({| Monitor.driver := true; Monitor.last_data := None;
        Monitor.fs := sample_disk |}, Some world_up_result).
Proof. intros [-> | ->]; reflexivity. Defined.


Lemma max_pages_edges_witness :
  -1 < 0 /\
  exists md,
    snd (Monitor.scrape_all_pages sample_monitor world_up (Some (-1))
           sample_state)
    = Some (JObj [ ("metadata", JObj md); ("data", JList []) ]) /\
    Py.dict_get md "total_records" = Some (JNum 0) /\
    Py.dict_get md "total_pages" = Some (JNum 1).
Proof.
  assert (-1 < 0) as Hlim by lia.
  split; [exact Hlim|].
  destruct (Monitor.scrape_all_pages sample_monitor world_up (Some (-1))
              sample_state) as [st' [env|]] eqn:E; [|discriminate E].
  destruct (proj2 (max_pages_edges sample_monitor world_up sample_state)
              (-1) st' env Hlim E) as (md & -> & Hrec & Hpages).
  exists md. split; [reflexivity|]. split; [exact Hrec | exact Hpages].
Defined.

Lemma envelope_headers_and_keys_witness :
  exists md (hs : list string) (records : list (list (string * json))),
    world_up_result
    = JObj [ ("metadata", JObj md); ("data", JList (map JObj records)) ] /\
    Py.dict_get md "headers" = Some (JList (map JStr hs)) /\
    hs <> [] /\
    (forall h, In h hs -> h <> "") /\
    (forall r, In r records ->
       (forall key, In key (Py.dict_keys r) -> In key hs) /\
       (length r <= length hs)%nat).
Proof.
  exact (envelope_headers_and_keys sample_monitor world_up None sample_state
           _ _ (world_up_scrape None (or_introl eq_refl))).
Defined.






Lemma monitor_paths_match_routes_witness :
  Py.lower (default "equity" (Api.arg_market default_request))
    = Py.lower "Equity" /\
  Monitor.latest_path
    {| Monitor.mon_kind := Monitor.AnnouncementsMonitor "Equity";
       Monitor.output_dir := "announcements_data" |}
  = "announcements_data/latest_equity.json".
Proof.
  assert (Py.lower (default "equity" (Api.arg_market default_request))
          = Py.lower "Equity") as Hmarket by reflexivity.
  split; [exact Hmarket|].
  rewrite (proj2 (monitor_paths_match_routes "Equity" default_request) Hmarket).
  reflexivity.
Defined.


Lemma health_flag_and_route_witness :
  Api.get_market default_request = "equity" /\
  Api.status (Api.route Api.Announcements sample_disk default_request) = 404.
Proof.
  assert (Api.get_market default_request = "equity") as Hmarket by reflexivity.
  split; [exact Hmarket|].
  destruct (health_flag_and_route Api.Announcements sample_disk "" default_request
              Hmarket)
    as (status & monitors & ready & flag & Hbody & Hflag & Hmissing & _).
  apply Hmissing. injection Hbody as _ <- _.
  vm_compute in Hflag. injection Hflag as <-. reflexivity.
Defined.

Lemma heatmap_route_status_witness :
  ~ (index_given bad_heatmap_request /\
     HeatmapApi.known_category (asked_category bad_heatmap_request) = true) /\
  Api.status (HeatmapApi.get_heatmap (fun _ _ => None) bad_heatmap_request) = 400 /\
  Api.body (HeatmapApi.get_heatmap (fun _ _ => None) bad_heatmap_request)
  = JObj [ ("success", JBool false);
           ("error", JStr "Missing required parameter: index") ].
Proof.
  assert (~ index_given bad_heatmap_request) as Hidx
    by (intros (c & s & H); discriminate H).
  assert (~ (index_given bad_heatmap_request /\
             HeatmapApi.known_category (asked_category bad_heatmap_request)
             = true)) as Hinvalid by (intros [H _]; exact (Hidx H)).
  destruct (heatmap_route_status (fun _ _ => None) bad_heatmap_request)
    as (Hstatus & _ & Hmissing & _).
  split; [exact Hinvalid|].
  split; [exact (proj2 Hstatus Hinvalid) | exact (Hmissing Hidx)].
Defined.

Lemma heatmap_route_data_witness :
  Api.status
    (HeatmapApi.get_heatmap
       (HeatmapApi.service_get_heatmap (fun _ _ => Some sample_tiles)
          "2025-01-06T10:05:00")
       heatmap_request) = 200 /\
  exists index_name cname collected stocks,
    HeatmapApi.arg_index heatmap_request = Some index_name /\
    HeatmapApi.category_name (asked_category heatmap_request) = Some cname /\
    Some sample_tiles = Some collected /\
    stocks = Heatmap.keep_first Heatmap.symbol [] collected /\
    NoDup (map Heatmap.symbol stocks) /\
    Api.body
      (HeatmapApi.get_heatmap
         (HeatmapApi.service_get_heatmap (fun _ _ => Some sample_tiles)
            "2025-01-06T10:05:00")
         heatmap_request)
    = JObj
        [ ("success", JBool true);
          ("data", JObj
            [ ("index_name", JStr index_name);
              ("category", JStr cname);
              ("total_stocks", JNum (Z.of_nat (length stocks)));
              ("scrape_timestamp", JStr "2025-01-06T10:05:00");
              ("stocks", JList (map HeatmapApi.stock_json stocks)) ]) ].
Proof.
  assert (Api.status
            (HeatmapApi.get_heatmap
               (HeatmapApi.service_get_heatmap (fun _ _ => Some sample_tiles)
                  "2025-01-06T10:05:00")
               heatmap_request) = 200) as Hok by reflexivity.
  split; [exact Hok|].
  exact (heatmap_route_data (fun _ _ => Some sample_tiles)
           "2025-01-06T10:05:00" heatmap_request Hok).
Defined.

Lemma indices_route_witness :
  HeatmapApi.known_category (asked_category heatmap_request) = true /\
  Api.status
    (HeatmapApi.get_indices
       (HeatmapApi.service_get_indices (fun _ => Some sample_cards))
       "2025-01-06T10:05:00" heatmap_request) = 200.
Proof.
  assert (HeatmapApi.known_category (asked_category heatmap_request) = true)
    as Hknown by reflexivity.
  split; [exact Hknown|].
  destruct (proj2 (proj2 (indices_route (fun _ => Some sample_cards)
                            "2025-01-06T10:05:00" heatmap_request))
              sample_cards Hknown eq_refl) as (cname & _ & _ & ->).
  reflexivity.
Defined.

Lemma record_address_witness :
  1 <= 2 /\
  page_records [10; 20; 30; 40; 50] (Z.of_nat 3 / 2 + 1) 2
    !! Z.to_nat (Z.of_nat 3 mod 2)
  = Some 40.
Proof.
  assert (1 <= 2) as H by lia.
  split; [exact H|].
  rewrite (record_address [10; 20; 30; 40; 50] 2 3 H). reflexivity.
Defined.

Lemma dedup_idempotent_witness :
  NoDup (map Heatmap.symbol (take 2 sample_tiles)) /\
  Heatmap.remove_duplicates Heatmap.symbol (take 2 sample_tiles)
  = take 2 sample_tiles.
Proof.
  assert (NoDup (map Heatmap.symbol (take 2 sample_tiles))) as Hnd
    by (apply (bool_decide_unpack _); vm_compute; exact I).
  split; [exact Hnd|].
  exact (proj1 (dedup_idempotent Heatmap.symbol (take 2 sample_tiles)) Hnd).
Defined.
